(* ===================================================================== *)
(*  ec2pricing: a shallow embedding of ec2_price.go                      *)
(*                                                                       *)
(*  The program resolves the price of an EC2 instance offering from the  *)
(*  AWS offer file, behind a two-tier disk cache (the raw offer file and *)
(*  one 8-byte blob per query).  The embedding follows the Go source     *)
(*  function by function: GetMD5Hash, GetSKU, GetPrice, GetOffers and    *)
(*  GetEC2Price.  The file system, the clock and the network are an      *)
(*  explicit World threaded through a small state-and-error monad.       *)
(* ===================================================================== *)

From Stdlib Require Import ZArith Lia List Strings.String Strings.Ascii Strings.Byte.
From stdpp Require Import base decidable option list gmap fin_maps strings.

Local Open Scope Z_scope.

(* --------------------------------------------------------------------- *)
(* Bytes and machine words                                               *)
(* --------------------------------------------------------------------- *)

Module Bytes.

(** [uint64(b)], [uint32(b)]: the numeric value of a byte. *)
Definition to_Z (b : byte) : Z := Z.of_N (Byte.to_N b).

(** [byte(v)]: Go's truncating conversion keeps the low eight bits. *)
Definition of_Z (v : Z) : byte :=
  default x00 (Byte.of_N (Z.to_N (v mod 256))).

(** [[]byte(text)]. *)
Definition of_string (text : string) : list byte := list_byte_of_string text.

Definition hextable : list ascii :=
  list_ascii_of_string "0123456789abcdef".

Definition hexdigit (v : Z) : ascii :=
  nth (Z.to_nat v) hextable "0"%char.

(** [hex.EncodeToString]: two lower-case digits per byte, high nibble
    first. *)
Fixpoint EncodeToString (src : list byte) : string :=
  match src with
  | [] => EmptyString
  | b :: rest =>
      String (hexdigit (Z.shiftr (to_Z b) 4))
        (String (hexdigit (Z.land (to_Z b) 15)) (EncodeToString rest))
  end.

End Bytes.

#[export] Instance byte_eq_dec : EqDecision byte := Byte.byte_eq_dec.

(* --------------------------------------------------------------------- *)
(* crypto/md5 (RFC 1321), on 32-bit words kept in Z                      *)
(* --------------------------------------------------------------------- *)

Module md5.

Definition mask32 : Z := 0xffffffff.
Definition wrap32 (x : Z) : Z := x mod 2 ^ 32.
Definition add32 (x y : Z) : Z := wrap32 (x + y).
Definition not32 (x : Z) : Z := Z.lxor x mask32.
Definition rotl32 (x c : Z) : Z :=
  wrap32 (Z.lor (Z.shiftl x c) (Z.shiftr x (32 - c))).

Definition K : list Z :=
  [ 0xd76aa478; 0xe8c7b756; 0x242070db; 0xc1bdceee;
    0xf57c0faf; 0x4787c62a; 0xa8304613; 0xfd469501;
    0x698098d8; 0x8b44f7af; 0xffff5bb1; 0x895cd7be;
    0x6b901122; 0xfd987193; 0xa679438e; 0x49b40821;
    0xf61e2562; 0xc040b340; 0x265e5a51; 0xe9b6c7aa;
    0xd62f105d; 0x02441453; 0xd8a1e681; 0xe7d3fbc8;
    0x21e1cde6; 0xc33707d6; 0xf4d50d87; 0x455a14ed;
    0xa9e3e905; 0xfcefa3f8; 0x676f02d9; 0x8d2a4c8a;
    0xfffa3942; 0x8771f681; 0x6d9d6122; 0xfde5380c;
    0xa4beea44; 0x4bdecfa9; 0xf6bb4b60; 0xbebfbc70;
    0x289b7ec6; 0xeaa127fa; 0xd4ef3085; 0x04881d05;
    0xd9d4d039; 0xe6db99e5; 0x1fa27cf8; 0xc4ac5665;
    0xf4292244; 0x432aff97; 0xab9423a7; 0xfc93a039;
    0x655b59c3; 0x8f0ccc92; 0xffeff47d; 0x85845dd1;
    0x6fa87e4f; 0xfe2ce6e0; 0xa3014314; 0x4e0811a1;
    0xf7537e82; 0xbd3af235; 0x2ad7d2bb; 0xeb86d391 ].

Definition S : list Z :=
  [ 7; 12; 17; 22; 7; 12; 17; 22; 7; 12; 17; 22; 7; 12; 17; 22;
    5; 9; 14; 20; 5; 9; 14; 20; 5; 9; 14; 20; 5; 9; 14; 20;
    4; 11; 16; 23; 4; 11; 16; 23; 4; 11; 16; 23; 4; 11; 16; 23;
    6; 10; 15; 21; 6; 10; 15; 21; 6; 10; 15; 21; 6; 10; 15; 21 ].

(** The four chaining words. *)
Record digest := Digest { dA : Z; dB : Z; dC : Z; dD : Z }.

Definition init : digest :=
  Digest 0x67452301 0xefcdab89 0x98badcfe 0x10325476.

(** Little-endian 32-bit word from four bytes. *)
Definition word_le (bs : list byte) : Z :=
  match bs with
  | b0 :: b1 :: b2 :: b3 :: _ =>
      Z.lor (Bytes.to_Z b0)
        (Z.lor (Z.shiftl (Bytes.to_Z b1) 8)
           (Z.lor (Z.shiftl (Bytes.to_Z b2) 16) (Z.shiftl (Bytes.to_Z b3) 24)))
  | _ => 0
  end.

Fixpoint words_le (n : nat) (bs : list byte) : list Z :=
  match n with
  | O => []
  | Datatypes.S k => word_le bs :: words_le k (drop 4 bs)
  end.

(** One of the 64 steps of the compression function. *)
Definition step (M : list Z) (st : digest) (i : nat) : digest :=
  let '(Digest a b c d) := st in
  let iz := Z.of_nat i in
  let '(f, g) :=
    if iz <? 16 then (Z.lor (Z.land b c) (Z.land (not32 b) d), iz)
    else if iz <? 32 then
      (Z.lor (Z.land d b) (Z.land (not32 d) c), (5 * iz + 1) mod 16)
    else if iz <? 48 then (Z.lxor b (Z.lxor c d), (3 * iz + 5) mod 16)
    else (Z.lxor c (Z.lor b (not32 d)), (7 * iz) mod 16) in
  let f' := add32 (add32 (add32 f a) (nth i K 0)) (nth (Z.to_nat g) M 0) in
  Digest d (add32 b (rotl32 f' (nth i S 0))) b c.

(** The compression function on one 64-byte block. *)
Definition block (st : digest) (chunk : list byte) : digest :=
  let M := words_le 16 chunk in
  let r := fold_left (step M) (seq 0 64) st in
  Digest (add32 (dA st) (dA r)) (add32 (dB st) (dB r))
         (add32 (dC st) (dC r)) (add32 (dD st) (dD r)).

Fixpoint blocks (n : nat) (st : digest) (msg : list byte) : digest :=
  match n with
  | O => st
  | Datatypes.S k => blocks k (block st (take 64 msg)) (drop 64 msg)
  end.

Fixpoint le_bytes (n : nat) (v : Z) : list byte :=
  match n with
  | O => []
  | Datatypes.S k => Bytes.of_Z v :: le_bytes k (Z.shiftr v 8)
  end.

(** Padding: 0x80, zeros up to 56 mod 64, then the length in bits as a
    little-endian 64-bit word. *)
Definition pad (msg : list byte) : list byte :=
  let len := Z.of_nat (length msg) in
  let zeros := Z.to_nat ((55 - len) mod 64) in
  msg ++ x80 :: replicate zeros x00 ++ le_bytes 8 ((8 * len) mod 2 ^ 64).

(** [hasher := md5.New(); hasher.Write(msg); hasher.Sum(nil)] *)
Definition Sum (msg : list byte) : list byte :=
  let p := pad msg in
  let r := blocks (length p / 64)%nat init p in
  le_bytes 4 (dA r) ++ le_bytes 4 (dB r) ++ le_bytes 4 (dC r) ++ le_bytes 4 (dD r).

End md5.

(** [GetMD5Hash] (ec2_price.go, lines 265-269). *)
Definition GetMD5Hash (text : string) : string :=
  Bytes.EncodeToString (md5.Sum (Bytes.of_string text)).

(* --------------------------------------------------------------------- *)
(* float64 and encoding/binary                                           *)
(* --------------------------------------------------------------------- *)

(** A [float64] is represented by its IEEE-754 bit pattern, which is what
    [math.Float64bits] exposes and all that the cache encoding looks at. *)
Record float64 := MkFloat64 {
  Float64bits : Z;
  Float64bits_range : bool_decide (0 ≤ Float64bits < 2 ^ 64)
}.

(** [math.Float64frombits] *)
Definition Float64frombits (b : Z) : float64 :=
  MkFloat64 (b mod 2 ^ 64)
    (bool_decide_pack _ (Z.mod_pos_bound b (2 ^ 64) eq_refl)).

Module binary.

(** [binary.LittleEndian.PutUint64] *)
Definition PutUint64 (v : Z) : list byte :=
  [ Bytes.of_Z v;
    Bytes.of_Z (Z.shiftr v 8);
    Bytes.of_Z (Z.shiftr v 16);
    Bytes.of_Z (Z.shiftr v 24);
    Bytes.of_Z (Z.shiftr v 32);
    Bytes.of_Z (Z.shiftr v 40);
    Bytes.of_Z (Z.shiftr v 48);
    Bytes.of_Z (Z.shiftr v 56) ].

(** [binary.LittleEndian.Uint64] on a slice of at least eight bytes. *)
Definition Uint64 (b : list byte) : Z :=
  match b with
  | b0 :: b1 :: b2 :: b3 :: b4 :: b5 :: b6 :: b7 :: _ =>
      Z.lor (Bytes.to_Z b0)
     (Z.lor (Z.shiftl (Bytes.to_Z b1) 8)
     (Z.lor (Z.shiftl (Bytes.to_Z b2) 16)
     (Z.lor (Z.shiftl (Bytes.to_Z b3) 24)
     (Z.lor (Z.shiftl (Bytes.to_Z b4) 32)
     (Z.lor (Z.shiftl (Bytes.to_Z b5) 40)
     (Z.lor (Z.shiftl (Bytes.to_Z b6) 48)
            (Z.shiftl (Bytes.to_Z b7) 56)))))))
  | _ => 0
  end.

End binary.

(* --------------------------------------------------------------------- *)
(* Errors and results                                                    *)
(* --------------------------------------------------------------------- *)

Inductive error : Type :=
| errors_New (msg : string)          (* errors.New(msg) *)
| PathError (op path : string)       (* *os.PathError of stat, open, write *)
| HttpError (url : string)           (* http.Get or a failed body read *)
| SyntaxError                        (* json.Unmarshal *)
| NumError (s : string)              (* strconv.ParseFloat *)
| EOF                                (* io.EOF *)
| ErrUnexpectedEOF.                  (* io.ErrUnexpectedEOF *)

(** The two errors the program itself constructs (lines 196 and 180). *)
Definition AmbiguousMatch : error := errors_New "More than one SKU found!".
Definition PriceNotFound : error := errors_New "Could not find price!".

(** A Go [(value, error)] return: on error the value is the zero value
    and is never looked at by the callers. *)
Inductive result (A : Type) : Type :=
| Ok (a : A)
| Error (e : error).
Arguments Ok {A} a.
Arguments Error {A} e.

Module binaryIO.

(** [binary.Write(buf, binary.LittleEndian, price_f)] into an empty
    buffer: the bytes written. *)
Definition Write (price_f : float64) : result (list byte) :=
  Ok (binary.PutUint64 (Float64bits price_f)).

(** [binary.Read(bytes.NewReader(body), binary.LittleEndian, &price_f)]:
    [io.ReadFull] of eight bytes, then [Float64frombits]. *)
Definition Read (body : list byte) : result float64 :=
  if decide (length body = 0%nat) then Error EOF
  else if decide (length body < 8)%nat then Error ErrUnexpectedEOF
  else Ok (Float64frombits (binary.Uint64 (take 8 body))).

End binaryIO.

(* --------------------------------------------------------------------- *)
(* The offer file (lines 28-66)                                          *)
(* --------------------------------------------------------------------- *)

Record Product := {
  SKU : string;
  ProductFamily : string;
  Attributes : gmap string string
}.

Record PriceDimension := {
  Description : string;
  Unit : string;
  StartingRange : string;
  EndingRange : string;
  PricePerUnit : gmap string string
}.

(** The field [SKU] of [Term] is [Term_SKU] here: the two records share a
    name space. *)
Record Term := {
  OfferTermCode : string;
  Term_SKU : string;
  EffectiveDate : string;
  TermAttributesType : string;
  TermAttributes : gmap string string;
  PriceDimensions : gmap string PriceDimension
}.

Record Offer := {
  FormatVersion : string;
  Disclaimer : string;
  OfferCode : string;
  Version : string;
  PublicationDate : string;
  Products : gmap string Product;
  Terms : gmap string (gmap string (gmap string Term))
}.

Record Price := { Currency : string; Value : string }.

Definition URL : string :=
  "https://pricing.us-east-1.amazonaws.com/offers/v1.0/aws/AmazonEC2/current/index.json".
Definition CACHE_DIR : string := "/tmp/.aws_pricing".
(** In seconds. *)
Definition MAX_CACHE_AGE : Z := 86400.
Definition AWS_LOCATION : string := "US West (Oregon)".

(** [m[k]] on a Go map: the zero value when the key is absent (and on a
    nil map). *)
Definition index {V : Type} (zero : V) (m : gmap string V) (k : string) : V :=
  default zero (m !! k).

(* --------------------------------------------------------------------- *)
(* What the Go runtime and libraries contribute                          *)
(* --------------------------------------------------------------------- *)

(** [range_map] is the order in which a [for ... range] loop visits a
    map: Go leaves it unspecified, so it is any enumeration of the
    entries.  [json_Unmarshal] decodes into a fresh [Offer];
    [strconv_ParseFloat] is [strconv.ParseFloat(s, 64)]. *)
Class Runtime := {
  range_map : ∀ {V : Type}, gmap string V → list (string * V);
  range_map_perm : ∀ (V : Type) (m : gmap string V), range_map m ≡ₚ map_to_list m;
  json_Unmarshal : list byte → option Offer;
  strconv_ParseFloat : string → option float64
}.

Section Resolver.
Context `{RT : Runtime}.

(** The condition of lines 189-192. *)
Definition matches (instance_type tenancy os : string) (product : Product) : bool :=
  bool_decide (index "" (Attributes product) "instanceType" = instance_type)
  && bool_decide (index "" (Attributes product) "location" = AWS_LOCATION)
  && bool_decide (index "" (Attributes product) "tenancy" = tenancy)
  && bool_decide (index "" (Attributes product) "operatingSystem" = os).

(** The loop of lines 188-200 over the products still to visit; [sku]
    is the local variable. *)
Fixpoint GetSKU_loop (instance_type tenancy os : string)
    (products : list (string * Product)) (sku : string) : result string :=
  match products with
  | [] => Ok sku
  | (_, product) :: rest =>
      if matches instance_type tenancy os product then
        if bool_decide (sku ≠ "") then Error AmbiguousMatch
        else GetSKU_loop instance_type tenancy os rest (SKU product)
      else GetSKU_loop instance_type tenancy os rest sku
  end.

(** [GetSKU] (lines 184-203). *)
Definition GetSKU (o : Offer) (instance_type tenancy os : string) : result string :=
  GetSKU_loop instance_type tenancy os (range_map (Products o)) "".

(** The innermost loop of [GetPrice] returns at its first entry. *)
Definition GetPrice_currencies (entries : list (string * string)) : option Price :=
  match entries with
  | [] => None
  | (currency, value) :: _ => Some {| Currency := currency; Value := value |}
  end.

Fixpoint GetPrice_dimensions (dims : list (string * PriceDimension)) : option Price :=
  match dims with
  | [] => None
  | (_, price_dimension) :: rest =>
      match GetPrice_currencies (range_map (PricePerUnit price_dimension)) with
      | Some price => Some price
      | None => GetPrice_dimensions rest
      end
  end.

Fixpoint GetPrice_terms (terms : list (string * Term)) : option Price :=
  match terms with
  | [] => None
  | (_, term) :: rest =>
      match GetPrice_dimensions (range_map (PriceDimensions term)) with
      | Some price => Some price
      | None => GetPrice_terms rest
      end
  end.

(** [GetPrice] (lines 167-182): [o.Terms[term][sku]] is the empty map
    when either key is absent. *)
Definition GetPrice (o : Offer) (sku term : string) : result Price :=
  match GetPrice_terms (range_map (index ∅ (index ∅ (Terms o) term) sku)) with
  | Some price => Ok price
  | None => Error PriceNotFound
  end.

End Resolver.

(* --------------------------------------------------------------------- *)
(* The world: file system, clock, network, and a trace of what was done  *)
(* --------------------------------------------------------------------- *)

(** A file of the cache directory: its bytes and its modification time
    (nanoseconds, wall clock). *)
Record File := { Contents : list byte; ModTime : Z }.

(** What [http.Get(url)] followed by [ioutil.ReadAll(res.Body)] will do. *)
Inductive http_reply : Type :=
| GetFails
| BodyFails
| BodyOk (body : list byte).

Inductive Event : Type :=
| EvStat (name : string)
| EvReadFile (name : string)
| EvWriteFile (name : string) (data : list byte)
| EvHttpGet (url : string)
| EvUnmarshal
| EvGetSKU
| EvGetPrice
| EvParseFloat
| EvLog (msg : string).

(** Where a failing [ioutil.WriteFile] fails: in [os.OpenFile], before
    the file is touched, or after it, when the file has been truncated
    and only the first [written] bytes of the data have reached it. *)
Inductive write_stage : Type :=
| OpenFails
| WriteFails (written : nat).

(** [read_fault] and [write_fault] say which paths the operating system
    refuses to read or to write (the [*os.PathError] returns);
    [write_failure] says at which stage a refused write fails. *)
Record World := {
  files : gmap string File;
  clock : Z;
  read_fault : string → bool;
  write_fault : string → bool;
  write_failure : string → write_stage;
  network : string → http_reply;
  trace : list Event
}.

Definition emit (ev : Event) (w : World) : World :=
  {| files := files w; clock := clock w; read_fault := read_fault w;
     write_fault := write_fault w; write_failure := write_failure w;
     network := network w; trace := trace w ++ [ev] |}.

Definition store (name : string) (f : File) (w : World) : World :=
  {| files := <[name := f]> (files w); clock := clock w;
     read_fault := read_fault w; write_fault := write_fault w;
     write_failure := write_failure w;
     network := network w; trace := trace w |}.

(** Time passing between two calls. *)
Definition elapse (d : Z) (w : World) : World :=
  {| files := files w; clock := clock w + d; read_fault := read_fault w;
     write_fault := write_fault w; write_failure := write_failure w;
     network := network w; trace := trace w |}.

(** How a call ends: it returns a value, returns an error, or the process
    exits inside it ([log.Fatalf] is [os.Exit(1)] after printing). *)
Inductive outcome (A : Type) : Type :=
| Ret (a : A)
| Err (e : error)
| Exit (format : string) (e : error).
Arguments Ret {A} a.
Arguments Err {A} e.
Arguments Exit {A} format e.

Definition M (A : Type) : Type := World → outcome A * World.

#[export] Instance M_ret : MRet M := λ A a w, (Ret a, w).

(** [x ← m; k]: run [m]; on an error do [return zero, err]; on exit stop. *)
#[export] Instance M_bind : MBind M := λ A B k m w,
  match m w with
  | (Ret a, w') => k a w'
  | (Err e, w') => (Err e, w')
  | (Exit format e, w') => (Exit format e, w')
  end.

(** [v, err := m] without the [if err != nil { return }]. *)
Definition try {A : Type} (m : M A) : M (result A) := λ w,
  match m w with
  | (Ret a, w') => (Ret (Ok a), w')
  | (Err e, w') => (Ret (Error e), w')
  | (Exit format e, w') => (Exit format e, w')
  end.

(** [if err != nil { h(err) }] *)
Definition or_else {A : Type} (m : M A) (h : error → M A) : M A := λ w,
  match m w with
  | (Err e, w') => h e w'
  | r => r
  end.

Definition lift {A : Type} (r : result A) : M A := λ w,
  match r with
  | Ok a => (Ret a, w)
  | Error e => (Err e, w)
  end.

Definition event (ev : Event) : M unit := λ w, (Ret tt, emit ev w).

Definition log_Printf (msg : string) : M unit := event (EvLog msg).

Definition log_Fatalf {A : Type} (format : string) (err : error) : M A := λ w,
  (Exit format err, emit (EvLog format) w).

Module time.

Definition Second : Z := 10 ^ 9.
Definition maxDuration : Z := 2 ^ 63 - 1.
Definition minDuration : Z := - 2 ^ 63.

(** [t.Sub(u)]: the difference in nanoseconds, saturating. *)
Definition Sub (t u : Z) : Z :=
  if maxDuration <? t - u then maxDuration
  else if t - u <? minDuration then minDuration
  else t - u.

(** [time.Since(t)] *)
Definition Since (t : Z) : M Z := λ w, (Ret (Sub (clock w) t), w).

(** [d.Seconds() < max_age].  [Seconds] is [float64(d / Second) +
    float64(d % Second) / 1e9]; for a whole number of seconds [max_age]
    below 2^53 that float is below [max_age] exactly when the integer
    duration is below [max_age] seconds, which is what is computed
    here. *)
Definition Seconds_lt (d max_age : Z) : bool := d <? max_age * Second.

End time.

Module os.
(** [os.Stat(name)]: the cache directory holds plain files only. *)
Definition Stat (name : string) : M File := λ w,
  match files w !! name with
  | Some f => (Ret f, emit (EvStat name) w)
  | None => (Err (PathError "stat" name), emit (EvStat name) w)
  end.
End os.

Module ioutil.

Definition ReadFile (name : string) : M (list byte) := λ w,
  match files w !! name with
  | Some f =>
      if read_fault w name then (Err (PathError "open" name), emit (EvReadFile name) w)
      else (Ret (Contents f), emit (EvReadFile name) w)
  | None => (Err (PathError "open" name), emit (EvReadFile name) w)
  end.

(** What a refused write returns and leaves behind.  [os.OpenFile] is
    called with [O_WRONLY|O_CREATE|O_TRUNC]: when it fails the file is as
    it was; when the failure comes later the file is already truncated,
    holds the bytes written so far and has a new modification time. *)
Definition failed_write {A : Type} (name : string) (data : list byte)
    (w : World) : outcome A * World :=
  match write_failure w name with
  | OpenFails => (Err (PathError "open" name), emit (EvWriteFile name data) w)
  | WriteFails written =>
      (Err (PathError "write" name),
       emit (EvWriteFile name data)
         (store name {| Contents := take written data; ModTime := clock w |} w))
  end.

(** [ioutil.WriteFile(name, data, 0777)]: creates or truncates the
    file; its modification time becomes the current time. *)
Definition WriteFile (name : string) (data : list byte) : M unit := λ w,
  if write_fault w name then failed_write name data w
  else
    (Ret tt,
     emit (EvWriteFile name data)
       (store name {| Contents := data; ModTime := clock w |} w)).

(** [ioutil.ReadAll(res.Body)], with [res.Body.Close()]. *)
Definition ReadAll (url : string) (res : http_reply) : M (list byte) :=
  match res with
  | BodyOk body => mret body
  | _ => lift (Error (HttpError url))
  end.

End ioutil.

Module http.
(** [http.Get(url)] *)
Definition Get (url : string) : M http_reply := λ w,
  match network w url with
  | GetFails => (Err (HttpError url), emit (EvHttpGet url) w)
  | res => (Ret res, emit (EvHttpGet url) w)
  end.
End http.

(** [(err == nil) && (time.Since(stat.ModTime()).Seconds() < MAX_CACHE_AGE)] *)
Definition is_fresh (stat : result File) : M bool :=
  match stat with
  | Ok info => d ← time.Since (ModTime info); mret (time.Seconds_lt d MAX_CACHE_AGE)
  | Error _ => mret false
  end.

Section Pipeline.
Context `{RT : Runtime}.

(** [json.Unmarshal(body, offer)] into [offer := &Offer{}]. *)
Definition Unmarshal (body : list byte) : M Offer :=
  event EvUnmarshal;;
  lift (match json_Unmarshal body with
        | Some offer => Ok offer
        | None => Error SyntaxError
        end).

(** [strconv.ParseFloat(s, 64)] *)
Definition ParseFloat (s : string) : M float64 :=
  event EvParseFloat;;
  lift (match strconv_ParseFloat s with
        | Some f => Ok f
        | None => Error (NumError s)
        end).

(** [GetOffers] (lines 205-251).  The write of line 239 comes after the
    [if]/[else], so both branches reach it. *)
Definition GetOffers (url : string) : M Offer :=
  let cache_file := CACHE_DIR +:+ "/offers" in
  stat ← try (os.Stat cache_file);
  fresh ← is_fresh stat;
  body ← (if fresh : bool then
            log_Printf ("Reading content from cache file: " +:+ cache_file);;
            ioutil.ReadFile cache_file
          else
            log_Printf ("Fetching content from AWS API: " +:+ url);;
            res ← http.Get url;
            ioutil.ReadAll url res);
  ioutil.WriteFile cache_file body;;
  Unmarshal body.

(** The name of the per-query cache file (line 106). *)
Definition cache_file_of (instance_type tenancy operating_system term : string) : string :=
  CACHE_DIR +:+ "/" +:+ GetMD5Hash (instance_type +:+ tenancy +:+ operating_system +:+ term).

(** [GetEC2Price] (lines 101-165). *)
Definition GetEC2Price (instance_type tenancy operating_system term : string) : M float64 :=
  let cache_file := cache_file_of instance_type tenancy operating_system term in
  stat ← try (os.Stat cache_file);
  fresh ← is_fresh stat;
  if fresh : bool then
    log_Printf ("Reading content from cache file: " +:+ cache_file);;
    body ← ioutil.ReadFile cache_file;
    lift (binaryIO.Read body)
  else
    offer ← or_else (GetOffers URL) (log_Fatalf "Could not get offers: %s");
    sku ← (event EvGetSKU;; lift (GetSKU offer instance_type tenancy operating_system));
    price ← (event EvGetPrice;; lift (GetPrice offer sku term));
    price_f ← ParseFloat (Value price);
    buf ← lift (binaryIO.Write price_f);
    ioutil.WriteFile cache_file buf;;
    mret price_f.

End Pipeline.

(* --------------------------------------------------------------------- *)
(* main and exists (lines 68-99 and 253-263)                             *)
(* --------------------------------------------------------------------- *)

(** What [main] itself asks of the operating system, all about the cache
    directory: [dir_stat path] is the error of [os.Stat(path)] ([None] for
    nil), [is_not_exist] is [os.IsNotExist], [mkdir_all path] is the error
    of [os.MkdirAll(path, 0777)]. *)
Record Host := {
  dir_stat : string → option error;
  is_not_exist : error → bool;
  mkdir_all : string → option error
}.

Inductive HostEvent : Type :=
| HvStat (path : string)
| HvMkdirAll (path : string).

(** [exists] (lines 253-263); the name is a keyword here.  The pair is
    the Go return, [None] for a nil error. *)
Definition exists_ (h : Host) (path : string) : bool * option error :=
  match dir_stat h path with
  | None => (true, None)
  | Some err => if is_not_exist h err then (false, None) else (true, Some err)
  end.

(** The four command line flags after [flag.Parse()]: [None] when a flag
    was not given. *)
Record Flags := {
  flag_type : option string;
  flag_tenancy : option string;
  flag_os : option string;
  flag_term : option string
}.

(** [flag.String(name, value, usage)] once parsed. *)
Definition flag_String (given : option string) (value : string) : string :=
  default value given.

(** How the process ends: [main] returns after [fmt.Println(price)], or
    [log.Fatalf(format, err)] exits with status 1 ([err] may be nil). *)
Inductive exit : Type :=
| Println (price : float64)
| Fatalf (format : string) (err : option error).

Section Main.
Context `{RT : Runtime}.

(** The call of line 90 and what follows it. *)
Definition main_price (instance_type tenancy operating_system term : string)
    (w : World) : exit * World :=
  match GetEC2Price instance_type tenancy operating_system term w with
  | (Ret price, w') =>
      (Println price, emit (EvLog "Price (%f) found for %s %s %s %s") w')
  | (Err err, w') =>
      (Fatalf "Could not get EC2 Price: %s" (Some err),
       emit (EvLog "Could not get EC2 Price: %s") w')
  | (Exit format err, w') => (Fatalf format (Some err), w')
  end.

(** [main] (lines 68-99).  In the branch of line 85 the variable [err] is
    still the nil error of line 79. *)
Definition main (h : Host) (flags : Flags) (w : World)
    : exit * list HostEvent * World :=
  let instance_type := flag_String (flag_type flags) "m4.4xlarge" in
  let tenancy := flag_String (flag_tenancy flags) "Shared" in
  let operating_system := flag_String (flag_os flags) "Linux" in
  let term := flag_String (flag_term flags) "OnDemand" in
  match exists_ h CACHE_DIR with
  | (_, Some err) =>
      (Fatalf "Could not get offers: %s" (Some err), [HvStat CACHE_DIR],
       emit (EvLog "Could not get offers: %s") w)
  | (true, None) =>
      let '(e, w') := main_price instance_type tenancy operating_system term w in
      (e, [HvStat CACHE_DIR], w')
  | (false, None) =>
      match mkdir_all h CACHE_DIR with
      | Some _ =>
          (Fatalf "Could not get offers: %s" None,
           [HvStat CACHE_DIR; HvMkdirAll CACHE_DIR],
           emit (EvLog "Could not get offers: %s") w)
      | None =>
          let '(e, w') := main_price instance_type tenancy operating_system term w in
          (e, [HvStat CACHE_DIR; HvMkdirAll CACHE_DIR], w')
      end
  end.

End Main.

(** [GetOffers(URL)] called again and again, [d] nanoseconds after the
    previous call for each [d] of the list. *)
Fixpoint GetOffers_after `{RT : Runtime} (delays : list Z) (w : World) : World :=
  match delays with
  | [] => w
  | d :: rest => GetOffers_after rest (snd (GetOffers URL (elapse d w)))
  end.

(* --------------------------------------------------------------------- *)
(* Predicates the statements below are written with                      *)
(* --------------------------------------------------------------------- *)

(** The pair [(currency, value)] is an entry of the [PricePerUnit] map of
    some price dimension of some term stored under [Terms[term][sku]]. *)
Definition price_listed (o : Offer) (sku term currency value : string) : Prop :=
  ∃ (by_sku : gmap string (gmap string Term)) (terms : gmap string Term)
    (id : string) (t : Term) (dim : string) (d : PriceDimension),
    Terms o !! term = Some by_sku
    ∧ by_sku !! sku = Some terms
    ∧ terms !! id = Some t
    ∧ PriceDimensions t !! dim = Some d
    ∧ PricePerUnit d !! currency = Some value.

(** The name of the file that caches the raw offer file (line 211). *)
Definition offers_file : string := CACHE_DIR +:+ "/offers".

(** The store holds a blob under [name] whose age is strictly below
    [MAX_CACHE_AGE] seconds. *)
Definition fresh_in (w : World) (name : string) : bool :=
  match files w !! name with
  | Some f => time.Seconds_lt (time.Sub (clock w) (ModTime f)) MAX_CACHE_AGE
  | None => false
  end.

(* --------------------------------------------------------------------- *)
(* Sample offer files, runtimes and worlds                               *)
(* --------------------------------------------------------------------- *)

Definition attributes_of (instance_type tenancy os : string) : gmap string string :=
  {[ "instanceType" := instance_type; "location" := AWS_LOCATION;
     "tenancy" := tenancy; "operatingSystem" := os ]}.

(** A shared-tenancy Linux m4.4xlarge in Oregon whose [sku] field is
    [sku]. *)
Definition product_of (sku : string) : Product :=
  {| SKU := sku; ProductFamily := "Compute Instance";
     Attributes := attributes_of "m4.4xlarge" "Shared" "Linux" |}.

Definition usd_term (sku value : string) : Term :=
  {| OfferTermCode := "JRTCKXETXF"; Term_SKU := sku;
     EffectiveDate := "2016-01-01T00:00:00Z"; TermAttributesType := "";
     TermAttributes := ∅;
     PriceDimensions :=
       {[ "dim1" := {| Description := "per On Demand Linux m4.4xlarge Instance Hour";
                       Unit := "Hrs"; StartingRange := "0"; EndingRange := "Inf";
                       PricePerUnit := {[ "USD" := value ]} |} ]} |}.

Definition offer_of (products : gmap string Product)
    (terms : gmap string (gmap string (gmap string Term))) : Offer :=
  {| FormatVersion := "v1.0"; Disclaimer := ""; OfferCode := "AmazonEC2";
     Version := "1"; PublicationDate := "2016-01-01T00:00:00Z";
     Products := products; Terms := terms |}.

(** The scenario of the specification: one product, one price. *)
Definition offer_ABC : Offer :=
  offer_of {[ "ABC" := product_of "ABC" ]}
           {[ "OnDemand" := {[ "ABC" := {[ "term1" := usd_term "ABC" "0.956" ]} ]} ]}.

(** Two matching products, neither with a [sku] field. *)
Definition offer_two_unnamed : Offer :=
  offer_of {[ "A" := product_of ""; "B" := product_of "" ]} ∅.

(** Two matching products, one of them without a [sku] field. *)
Definition offer_mixed : Offer :=
  offer_of {[ "A" := product_of ""; "B" := product_of "B" ]} ∅.

(** One matching product without a [sku] field, and a price filed under
    the empty SKU. *)
Definition offer_unnamed_priced : Offer :=
  offer_of {[ "A" := product_of "" ]}
           {[ "OnDemand" := {[ "" := {[ "term1" := usd_term "" "0.5" ]} ]} ]}.

(** The entries as listed, or in the reverse order. *)
Definition visit {A : Type} (backwards : bool) (l : list A) : list A :=
  if backwards then rev l else l.

Definition visit_perm {A : Type} (backwards : bool) (l : list A) :
    visit backwards l ≡ₚ l :=
  match backwards as b return visit b l ≡ₚ l with
  | true => Permutation_sym (Permutation_rev l)
  | false => reflexivity l
  end.

(** A runtime that visits maps in the order of [map_to_list], or in the
    reverse of it, decodes the one document [doc] to [o] and nothing
    else, and parses the two decimal strings of the samples. *)
Definition sample_runtime (backwards : bool) (doc : list byte) (o : Offer) : Runtime :=
  {| range_map V m := visit backwards (map_to_list m);
     range_map_perm V m := visit_perm backwards (map_to_list m);
     json_Unmarshal body := if decide (body = doc) then Some o else None;
     strconv_ParseFloat s :=
       if decide (s = "0.956") then Some (Float64frombits 0x3fee978d4fdf3b64)
       else if decide (s = "0.5") then Some (Float64frombits 0x3fe0000000000000)
       else None |}.

Definition sample_doc : list byte := Bytes.of_string "{}".

Definition world_of (fs : gmap string File) (now : Z) (reply : http_reply) : World :=
  {| files := fs; clock := now; read_fault := λ _, false;
     write_fault := λ _, false; write_failure := λ _, OpenFails;
     network := λ _, reply; trace := [] |}.

Definition default_cache_file : string :=
  cache_file_of "m4.4xlarge" "Shared" "Linux" "OnDemand".

(** An empty cache directory and no network. *)
Definition world_offline : World := world_of ∅ 1000 GetFails.

(** An empty cache directory; the network serves [sample_doc]. *)
Definition world_online : World := world_of ∅ 1000 (BodyOk sample_doc).


(** The offer file cached a microsecond ago; the price cache is empty. *)
Definition world_cached_offers : World :=
  world_of {[ offers_file := {| Contents := sample_doc; ModTime := 0 |} ]}
           1000 GetFails.

(** The network document decodes to [offer_ABC]. *)
Definition runtime_ABC : Runtime := sample_runtime false sample_doc offer_ABC.

(** The network document decodes to [offer_unnamed_priced]. *)
Definition runtime_unnamed_priced : Runtime :=
  sample_runtime false sample_doc offer_unnamed_priced.

(** No document decodes but the empty one. *)
Definition runtime_strict : Runtime := sample_runtime false [] offer_ABC.

Definition dedicated_cache_file : string :=
  cache_file_of "m4.4xlarge" "Dedicated" "Linux" "OnDemand".

(** A lower-case hexadecimal digit. *)
Definition is_hex (c : ascii) : Prop := In c Bytes.hextable.

(** The cache directory exists. *)
Definition host_ready : Host :=
  {| dir_stat := λ _, None; is_not_exist := λ _, false; mkdir_all := λ _, None |}.

(** The cache directory is missing and cannot be created. *)
Definition host_readonly : Host :=
  {| dir_stat := λ path, Some (PathError "stat" path);
     is_not_exist := λ _, true;
     mkdir_all := λ path, Some (PathError "mkdir" path) |}.

Definition no_flags : Flags :=
  {| flag_type := None; flag_tenancy := None; flag_os := None; flag_term := None |}.

(** Two currencies for one price dimension. *)
Definition offer_two_currencies : Offer :=
  offer_of {[ "ABC" := product_of "ABC" ]}
    {[ "OnDemand" :=
         {[ "ABC" :=
              {[ "term1" :=
                   {| OfferTermCode := "JRTCKXETXF"; Term_SKU := "ABC";
                      EffectiveDate := "2016-01-01T00:00:00Z";
                      TermAttributesType := ""; TermAttributes := ∅;
                      PriceDimensions :=
                        {[ "dim1" :=
                             {| Description := ""; Unit := "Hrs";
                                StartingRange := "0"; EndingRange := "Inf";
                                PricePerUnit := {[ "USD" := "0.956"; "CNY" := "0.5" ]} |} ]} |} ]} ]} ]}.

(** A day and a bit since the offer file was written. *)
Definition world_stale_offers : World :=
  world_of {[ offers_file := {| Contents := sample_doc; ModTime := 0 |} ]}
           (90000 * 10 ^ 9) (BodyOk sample_doc).

(** The offer file written just now. *)
Definition world_fresh_offers : World :=
  world_of {[ offers_file := {| Contents := sample_doc; ModTime := 1000 |} ]}
           1000 GetFails.

(** A three-byte blob under the default query's key. *)
Definition world_truncated_price : World :=
  world_of {[ default_cache_file := {| Contents := [x01; x02; x03]; ModTime := 0 |} ]}
           1000 GetFails.

(** A product that records no attribute at all. *)
Definition offer_no_attributes : Offer :=
  offer_of {[ "X" := {| SKU := "X"; ProductFamily := ""; Attributes := ∅ |} ]} ∅.

(** The offer file cached a microsecond ago, and a disk that takes three
    bytes of the default query's cache file before the write fails. *)
Definition world_disk_full : World :=
  {| files := {[ offers_file := {| Contents := sample_doc; ModTime := 0 |} ]};
     clock := 1000;
     read_fault := λ _, false;
     write_fault := λ n, bool_decide (n = default_cache_file);
     write_failure := λ _, WriteFails 3;
     network := λ _, GetFails;
     trace := [] |}.

(* ===================================================================== *)
(*  Theorems                                                             *)
(* ===================================================================== *)

(* --------------------------------------------------------------------- *)
(* Bytes and the fixed-width encoding                                    *)
(* --------------------------------------------------------------------- *)

Lemma to_Z_of_Z (v : Z) : Bytes.to_Z (Bytes.of_Z v) = v mod 256.
Proof.
  unfold Bytes.to_Z, Bytes.of_Z.
  assert (Hb : 0 ≤ v mod 256 < 256) by (apply Z.mod_pos_bound; lia).
  destruct (Byte.of_N (Z.to_N (v mod 256))) as [b|] eqn:E; simpl.
  - apply Byte.to_of_N in E. rewrite E. lia.
  - apply Byte.of_N_None_iff in E. lia.
Qed.

Lemma testbit_low_byte (v n : Z) :
  0 ≤ n → Z.testbit (v mod 256) n = (n <? 8) && Z.testbit v n.
Proof.
  intros Hn. change 256 with (2 ^ 8).
  rewrite Z.testbit_mod_pow2 by lia. reflexivity.
Qed.

Lemma testbit_byte_at (v k n : Z) :
  0 ≤ k → 0 ≤ n →
  Z.testbit (Z.shiftl (Z.shiftr v k mod 256) k) n
  = (k <=? n) && (n <? k + 8) && Z.testbit v n.
Proof.
  intros Hk Hn. rewrite Z.shiftl_spec by lia.
  destruct (Z.leb_spec k n) as [Hle|Hlt]; simpl.
  - rewrite testbit_low_byte, Z.shiftr_spec by lia.
    replace (n - k + k) with n by lia.
    destruct (Z.ltb_spec (n - k) 8), (Z.ltb_spec n (k + 8)); try lia; reflexivity.
  - apply Z.testbit_neg_r. lia.
Qed.

Lemma Uint64_PutUint64 (v : Z) :
  binary.Uint64 (binary.PutUint64 v) = v mod 2 ^ 64.
Proof.
  unfold binary.Uint64, binary.PutUint64. rewrite !to_Z_of_Z.
  apply Z.bits_inj'. intros n Hn.
  rewrite !Z.lor_spec, !testbit_byte_at, testbit_low_byte by lia.
  rewrite Z.testbit_mod_pow2 by lia.
  destruct (Z.testbit v n); rewrite ?andb_false_r, ?andb_true_r; simpl.
  - repeat match goal with
           | |- context [Z.leb ?a ?b] => destruct (Z.leb_spec a b); try lia
           | |- context [Z.ltb ?a ?b] => destruct (Z.ltb_spec a b); try lia
           end; reflexivity.
  - reflexivity.
Qed.

Lemma float64_eq (f g : float64) : Float64bits f = Float64bits g → f = g.
Proof.
  destruct f as [a Ha], g as [b Hb]; simpl. intros ->.
  f_equal. apply proof_irrel.
Qed.

Lemma Float64frombits_Float64bits (f : float64) :
  Float64frombits (Float64bits f) = f.
Proof.
  apply float64_eq. simpl.
  pose proof (bool_decide_unpack _ (Float64bits_range f)).
  apply Z.mod_small. assumption.
Qed.

Lemma Read_PutUint64 (price_f : float64) :
  binaryIO.Read (binary.PutUint64 (Float64bits price_f)) = Ok price_f.
Proof.
  unfold binaryIO.Read. simpl length.
  rewrite decide_False by lia. rewrite decide_False by lia.
  change (take 8 (binary.PutUint64 (Float64bits price_f)))
    with (binary.PutUint64 (Float64bits price_f)).
  rewrite Uint64_PutUint64. f_equal. apply float64_eq. simpl.
  rewrite Z.mod_mod by lia.
  apply Z.mod_small, (bool_decide_unpack _ (Float64bits_range price_f)).
Qed.

(** C6.  The blob written on the cache-miss path is exactly eight bytes,
    byte [i] being bits [8i..8i+7] of the float's IEEE-754 pattern
    (little-endian), and decoding that blob as the cache-hit path does
    gives back the float with the same bit pattern. *)
Theorem binary_roundtrip (price_f : float64) :
  ∃ blob : list byte,
    binaryIO.Write price_f = Ok blob
    ∧ length blob = 8%nat
    ∧ (∀ i : nat, (i < 8)%nat →
         Bytes.to_Z <$> blob !! i
         = Some (Z.shiftr (Float64bits price_f) (8 * Z.of_nat i) mod 256))
    ∧ binaryIO.Read blob = Ok price_f
    ∧ (∀ g : float64, binaryIO.Read blob = Ok g → Float64bits g = Float64bits price_f).
Proof.
  exists (binary.PutUint64 (Float64bits price_f)).
  pose proof (Read_PutUint64 price_f) as Hread.
  repeat split.
  - intros i Hi.
    do 8 (destruct i as [|i]; [simpl; rewrite to_Z_of_Z; reflexivity|]). lia.
  - exact Hread.
  - intros g Hg. rewrite Hread in Hg. congruence.
Qed.

(* --------------------------------------------------------------------- *)
(* The cache key                                                         *)
(* --------------------------------------------------------------------- *)

Example GetMD5Hash_empty :
  GetMD5Hash "" = "d41d8cd98f00b204e9800998ecf8427e"%string.
Proof. vm_compute. reflexivity. Qed.

Example GetMD5Hash_abc :
  GetMD5Hash "abc" = "900150983cd24fb0d6963f7d28e17f72"%string.
Proof. vm_compute. reflexivity. Qed.

Example GetMD5Hash_default_query :
  GetMD5Hash "m4.4xlargeSharedLinuxOnDemand"
  = "64cadeb651d40aac19cdd4b340479f69"%string.
Proof. vm_compute. reflexivity. Qed.

Example GetMD5Hash_two_blocks :
  GetMD5Hash "aaaaaaaaaaaaaaaaaaaaaaaaaaaaaaaaaaaaaaaaaaaaaaaaaaaaaaaaaaaaaaaaaaaaaa"
  = "0f5c6c4e740bfcc08c3c26ccb2673d46"%string.
Proof. vm_compute. reflexivity. Qed.

(** 56 bytes: the padding spills into a second block. *)
Example GetMD5Hash_padding_boundary :
  GetMD5Hash "xxxxxxxxxxxxxxxxxxxxxxxxxxxxxxxxxxxxxxxxxxxxxxxxxxxxxxxx"
  = "668a72d5ba17f08e62dabcafad6db14b"%string.
Proof. vm_compute. reflexivity. Qed.

Lemma le_bytes_length (n : nat) (v : Z) : length (md5.le_bytes n v) = n.
Proof. revert v. induction n as [|n IH]; intros v; simpl; [|rewrite IH]; reflexivity. Qed.

Lemma md5_Sum_length (msg : list byte) : length (md5.Sum msg) = 16%nat.
Proof. unfold md5.Sum. rewrite !length_app, !le_bytes_length. reflexivity. Qed.

Lemma EncodeToString_length (src : list byte) :
  String.length (Bytes.EncodeToString src) = (2 * length src)%nat.
Proof. induction src as [|b src IH]; simpl; [reflexivity|]. rewrite IH. lia. Qed.

Lemma GetMD5Hash_length (text : string) : String.length (GetMD5Hash text) = 32%nat.
Proof. unfold GetMD5Hash. rewrite EncodeToString_length, md5_Sum_length. reflexivity. Qed.

Lemma append_inj_r (a x y : string) : a +:+ x = a +:+ y → x = y.
Proof.
  induction a as [|c a IH]; [intros H; exact H|].
  change (String c a +:+ x) with (String c (a +:+ x)).
  change (String c a +:+ y) with (String c (a +:+ y)).
  intros [= H]. apply IH, H.
Qed.

Lemma hextable_nth_inj (n m : nat) :
  (n < 16)%nat → (m < 16)%nat →
  nth n Bytes.hextable "0"%char = nth m Bytes.hextable "0"%char → n = m.
Proof.
  intros Hn Hm.
  do 16 (destruct n as [|n];
         [do 16 (destruct m as [|m]; [first [reflexivity|discriminate]|]); lia|]).
  lia.
Qed.

Lemma hexdigit_inj (u v : Z) :
  0 ≤ u < 16 → 0 ≤ v < 16 → Bytes.hexdigit u = Bytes.hexdigit v → u = v.
Proof.
  intros Hu Hv Heq. apply hextable_nth_inj in Heq; lia.
Qed.

Lemma to_Z_range (b : byte) : 0 ≤ Bytes.to_Z b < 256.
Proof. unfold Bytes.to_Z. pose proof (Byte.to_N_bounded b). lia. Qed.

Lemma to_Z_inj (b1 b2 : byte) : Bytes.to_Z b1 = Bytes.to_Z b2 → b1 = b2.
Proof.
  unfold Bytes.to_Z. intros Heq. apply N2Z.inj in Heq.
  pose proof (Byte.of_to_N b1) as H1. rewrite Heq, Byte.of_to_N in H1. congruence.
Qed.

Lemma nibbles (x : Z) :
  0 ≤ x < 256 →
  0 ≤ Z.shiftr x 4 < 16 ∧ 0 ≤ Z.land x 15 < 16
  ∧ x = 16 * Z.shiftr x 4 + Z.land x 15.
Proof.
  intros Hx. rewrite Z.shiftr_div_pow2 by lia.
  change 15 with (Z.ones 4). rewrite Z.land_ones by lia.
  change (2 ^ 4) with 16.
  pose proof (Z.div_mod x 16 ltac:(lia)). pose proof (Z.mod_pos_bound x 16 ltac:(lia)).
  repeat split; lia.
Qed.

(** [hex.EncodeToString] loses nothing. *)
Lemma EncodeToString_inj (l1 l2 : list byte) :
  Bytes.EncodeToString l1 = Bytes.EncodeToString l2 → l1 = l2.
Proof.
  revert l2. induction l1 as [|b1 l1 IH]; intros [|b2 l2]; simpl;
    try discriminate; [reflexivity|].
  intros [= Hhi Hlo Hrest]. f_equal; [|apply IH, Hrest].
  destruct (nibbles _ (to_Z_range b1)) as (Hh1 & Hl1 & H1).
  destruct (nibbles _ (to_Z_range b2)) as (Hh2 & Hl2 & H2).
  apply hexdigit_inj in Hhi; [|assumption..].
  apply hexdigit_inj in Hlo; [|assumption..].
  apply to_Z_inj. lia.
Qed.

(** C8.  The cache file is [CACHE_DIR], a slash and the 32 hex
    characters of the 16-byte MD5 digest of the bytes of instance class,
    tenancy, OS and term concatenated in that order without separators.
    Two queries get the same file exactly when those digests are equal;
    so equal queries do, and so do different queries whose
    concatenations coincide.  The digest is the real one and the order
    of the fields counts: the default query's file is the MD5 of
    "m4.4xlargeSharedLinuxOnDemand", and swapping two fields or
    changing one gives another file. *)
Theorem cache_key_of_concatenation (i1 t1 o1 m1 i2 t2 o2 m2 : string) :
  (cache_file_of i1 t1 o1 m1 = cache_file_of i2 t2 o2 m2
   ↔ md5.Sum (Bytes.of_string (i1 +:+ t1 +:+ o1 +:+ m1))
     = md5.Sum (Bytes.of_string (i2 +:+ t2 +:+ o2 +:+ m2)))
  ∧ ((i1, t1, o1, m1) = (i2, t2, o2, m2) →
     cache_file_of i1 t1 o1 m1 = cache_file_of i2 t2 o2 m2)
  ∧ (i1 +:+ t1 +:+ o1 +:+ m1 = i2 +:+ t2 +:+ o2 +:+ m2 →
     cache_file_of i1 t1 o1 m1 = cache_file_of i2 t2 o2 m2)
  ∧ cache_file_of i1 t1 o1 m1
    = CACHE_DIR +:+ "/" +:+ GetMD5Hash (i1 +:+ t1 +:+ o1 +:+ m1)
  ∧ length (md5.Sum (Bytes.of_string (i1 +:+ t1 +:+ o1 +:+ m1))) = 16%nat
  ∧ String.length (GetMD5Hash (i1 +:+ t1 +:+ o1 +:+ m1)) = 32%nat
  ∧ cache_file_of "m4.4xlarge" "Shared" "Linux" "OnDemand"
    = "/tmp/.aws_pricing/64cadeb651d40aac19cdd4b340479f69"%string
  ∧ cache_file_of "Shared" "m4.4xlarge" "Linux" "OnDemand"
    ≠ cache_file_of "m4.4xlarge" "Shared" "Linux" "OnDemand"
  ∧ cache_file_of "m4.4xlarge" "Dedicated" "Linux" "OnDemand"
    ≠ cache_file_of "m4.4xlarge" "Shared" "Linux" "OnDemand".
Proof.
  split.
  { unfold cache_file_of, GetMD5Hash. split.
    - intros Heq. apply append_inj_r, append_inj_r in Heq.
      apply EncodeToString_inj, Heq.
    - intros ->. reflexivity. }
  split; [intros [= -> -> -> ->]; reflexivity|].
  split; [intros Hcat; unfold cache_file_of; rewrite Hcat; reflexivity|].
  split; [reflexivity|]. split; [apply md5_Sum_length|].
  split; [apply GetMD5Hash_length|].
  split; [vm_compute; reflexivity|].
  split; vm_compute; discriminate.
Qed.

(** Two different queries that share one cache file. *)
Lemma cache_key_of_concatenation_witness :
  ("m4.4xlarge", "Shared", "Linux", "OnDemand")
    ≠ ("m4.4xlargeShared", "", "Linux", "OnDemand")
  ∧ cache_file_of "m4.4xlarge" "Shared" "Linux" "OnDemand"
    = cache_file_of "m4.4xlargeShared" "" "Linux" "OnDemand".
Proof.
  split; [discriminate|].
  destruct (cache_key_of_concatenation
              "m4.4xlarge" "Shared" "Linux" "OnDemand"
              "m4.4xlargeShared" "" "Linux" "OnDemand") as (_ & _ & Hcat & _).
  apply Hcat. reflexivity.
Defined.

(* --------------------------------------------------------------------- *)
(* GetPrice                                                              *)
(* --------------------------------------------------------------------- *)

Section ResolverFacts.
Context `{RT : Runtime}.

Lemma elem_of_range_map {V : Type} (m : gmap string V) (k : string) (v : V) :
  (k, v) ∈ range_map m ↔ m !! k = Some v.
Proof. rewrite (range_map_perm V m). apply elem_of_map_to_list. Qed.

Lemma range_map_nil {V : Type} (m : gmap string V) :
  range_map m = [] ↔ m = ∅.
Proof.
  split.
  - intros Hnil. apply map_to_list_empty_iff.
    apply Permutation_nil_r. rewrite <- (range_map_perm V m), Hnil. reflexivity.
  - intros ->. apply Permutation_nil_r.
    rewrite (range_map_perm V ∅), map_to_list_empty. reflexivity.
Qed.

Lemma GetPrice_currencies_Some (m : gmap string string) (price : Price) :
  GetPrice_currencies (range_map m) = Some price →
  m !! Currency price = Some (Value price).
Proof.
  destruct (range_map m) as [|[c v] rest] eqn:E; simpl; [discriminate|].
  intros [= <-]. simpl. apply elem_of_range_map. rewrite E. left.
Qed.

Lemma GetPrice_currencies_None (m : gmap string string) :
  GetPrice_currencies (range_map m) = None ↔ m = ∅.
Proof.
  rewrite <- range_map_nil.
  destruct (range_map m) as [|[c v] rest]; simpl; split; congruence.
Qed.

Lemma GetPrice_dimensions_Some (dims : list (string * PriceDimension)) (price : Price) :
  GetPrice_dimensions dims = Some price →
  ∃ dim d, (dim, d) ∈ dims ∧ PricePerUnit d !! Currency price = Some (Value price).
Proof.
  induction dims as [|[dim d] rest IH]; simpl; [discriminate|].
  destruct (GetPrice_currencies (range_map (PricePerUnit d))) as [p|] eqn:E.
  - intros [= ->]. exists dim, d. split; [left|].
    apply GetPrice_currencies_Some, E.
  - intros Hrest. destruct (IH Hrest) as (dim' & d' & Hin & Hp).
    exists dim', d'. split; [right; exact Hin|exact Hp].
Qed.

Lemma GetPrice_dimensions_None (dims : list (string * PriceDimension)) :
  GetPrice_dimensions dims = None ↔
  ∀ dim d, (dim, d) ∈ dims → PricePerUnit d = ∅.
Proof.
  induction dims as [|[dim d] rest IH]; simpl.
  - split; [|reflexivity]. intros _ dim d Hin. inversion Hin.
  - destruct (GetPrice_currencies (range_map (PricePerUnit d))) as [p|] eqn:E.
    + split; [discriminate|]. intros Hall.
      assert (Hd : PricePerUnit d = ∅) by (apply (Hall dim); left).
      apply GetPrice_currencies_None in Hd. congruence.
    + apply GetPrice_currencies_None in E. rewrite IH. split.
      * intros Hall dim' d' Hin.
        apply elem_of_cons in Hin as [[= -> ->]|Hin]; [exact E|eauto].
      * intros Hall dim' d' Hin. apply (Hall dim'). right. exact Hin.
Qed.

Lemma GetPrice_terms_Some (terms : list (string * Term)) (price : Price) :
  GetPrice_terms terms = Some price →
  ∃ id t dim d, (id, t) ∈ terms ∧ PriceDimensions t !! dim = Some d
                ∧ PricePerUnit d !! Currency price = Some (Value price).
Proof.
  induction terms as [|[id t] rest IH]; simpl; [discriminate|].
  destruct (GetPrice_dimensions (range_map (PriceDimensions t))) as [p|] eqn:E.
  - intros [= ->]. apply GetPrice_dimensions_Some in E as (dim & d & Hin & Hp).
    exists id, t, dim, d. split; [left|]. split; [|exact Hp].
    apply elem_of_range_map, Hin.
  - intros Hrest. destruct (IH Hrest) as (id' & t' & dim & d & Hin & Hrest').
    exists id', t', dim, d. split; [right; exact Hin|exact Hrest'].
Qed.

Lemma GetPrice_terms_None (terms : list (string * Term)) :
  GetPrice_terms terms = None ↔
  ∀ id t dim d, (id, t) ∈ terms → PriceDimensions t !! dim = Some d →
                PricePerUnit d = ∅.
Proof.
  induction terms as [|[id t] rest IH]; simpl.
  - split; [|reflexivity]. intros _ id t dim d Hin. inversion Hin.
  - destruct (GetPrice_dimensions (range_map (PriceDimensions t))) as [p|] eqn:E.
    + split; [discriminate|]. intros Hall.
      assert (Hnone : GetPrice_dimensions (range_map (PriceDimensions t)) = None).
      { apply GetPrice_dimensions_None. intros dim d Hin.
        apply (Hall id t dim d); [left|]. apply elem_of_range_map, Hin. }
      congruence.
    + rewrite IH. split.
      * intros Hall id' t' dim d Hin Hd.
        apply elem_of_cons in Hin as [[= -> ->]|Hin]; [|eauto].
        apply (proj1 (GetPrice_dimensions_None _) E dim d).
        apply elem_of_range_map, Hd.
      * intros Hall id' t' dim d Hin. apply (Hall id'). right. exact Hin.
Qed.

Lemma index_index_lookup (o : Offer) (sku term id : string) (t : Term) :
  index ∅ (index ∅ (Terms o) term) sku !! id = Some t ↔
  ∃ by_sku terms, Terms o !! term = Some by_sku ∧ by_sku !! sku = Some terms
                  ∧ terms !! id = Some t.
Proof.
  unfold index. split.
  - destruct (Terms o !! term) as [by_sku|]; simpl.
    + destruct (by_sku !! sku) as [terms|] eqn:E; simpl.
      * intros Ht. exists by_sku, terms. auto.
      * rewrite lookup_empty. discriminate.
    + rewrite lookup_empty. simpl. rewrite lookup_empty. discriminate.
  - intros (by_sku & terms & -> & Hs & Ht). simpl. rewrite Hs. exact Ht.
Qed.

Lemma GetPrice_Ok (o : Offer) (sku term : string) (price : Price) :
  GetPrice o sku term = Ok price →
  price_listed o sku term (Currency price) (Value price).
Proof.
  unfold GetPrice.
  destruct (GetPrice_terms _) as [p|] eqn:E; [|discriminate].
  intros [= ->]. apply GetPrice_terms_Some in E as (id & t & dim & d & Hin & Hd & Hp).
  apply elem_of_range_map, index_index_lookup in Hin as (by_sku & terms & H1 & H2 & H3).
  exists by_sku, terms, id, t, dim, d. auto.
Qed.

Lemma GetPrice_PriceNotFound (o : Offer) (sku term : string) :
  GetPrice o sku term = Error PriceNotFound ↔
  ¬ ∃ currency value, price_listed o sku term currency value.
Proof.
  unfold GetPrice.
  destruct (GetPrice_terms _) as [p|] eqn:E.
  - split; [discriminate|]. intros Hno. exfalso. apply Hno.
    exists (Currency p), (Value p). apply GetPrice_Ok.
    unfold GetPrice. rewrite E. reflexivity.
  - split; [|reflexivity]. intros _ (c & v & by_sku & terms & id & t & dim & d & H1 & H2 & H3 & H4 & H5).
    pose proof (proj1 (GetPrice_terms_None _) E id t dim d) as Hempty.
    rewrite Hempty in H5.
    + rewrite lookup_empty in H5. discriminate.
    + apply elem_of_range_map, index_index_lookup. eauto.
    + exact H4.
Qed.

(** C7.  [GetPrice] is total: it returns a price or [PriceNotFound] and
    nothing else.  A returned pair is an entry of a [PricePerUnit] map
    under [Terms[term][sku]]; [PriceNotFound] is returned exactly when
    there is no such entry, which covers an absent term name, an absent
    SKU under it, and terms or price dimensions that are all empty. *)
Theorem GetPrice_spec (o : Offer) (sku term : string) :
  (∀ price, GetPrice o sku term = Ok price →
     price_listed o sku term (Currency price) (Value price))
  ∧ (GetPrice o sku term = Error PriceNotFound ↔
     ¬ ∃ currency value, price_listed o sku term currency value)
  ∧ ((∃ price, GetPrice o sku term = Ok price)
     ∨ GetPrice o sku term = Error PriceNotFound)
  ∧ (Terms o !! term = None → GetPrice o sku term = Error PriceNotFound)
  ∧ (∀ by_sku, Terms o !! term = Some by_sku → by_sku !! sku = None →
     GetPrice o sku term = Error PriceNotFound)
  ∧ ((∀ by_sku terms id t dim d,
        Terms o !! term = Some by_sku → by_sku !! sku = Some terms →
        terms !! id = Some t → PriceDimensions t !! dim = Some d →
        PricePerUnit d = ∅) →
     GetPrice o sku term = Error PriceNotFound).
Proof.
  split; [apply GetPrice_Ok|]. split; [apply GetPrice_PriceNotFound|].
  split.
  { unfold GetPrice. destruct (GetPrice_terms _); eauto. }
  repeat split.
  - intros Hnone. apply GetPrice_PriceNotFound.
    intros (c & v & by_sku & terms & id & t & dim & d & H1 & _). congruence.
  - intros by_sku Hterm Hnone. apply GetPrice_PriceNotFound.
    intros (c & v & by_sku' & terms & id & t & dim & d & H1 & H2 & _). congruence.
  - intros Hall. apply GetPrice_PriceNotFound.
    intros (c & v & by_sku & terms & id & t & dim & d & H1 & H2 & H3 & H4 & H5).
    rewrite (Hall _ _ _ _ _ _ H1 H2 H3 H4), lookup_empty in H5. discriminate.
Qed.

End ResolverFacts.

(* --------------------------------------------------------------------- *)
(* GetSKU                                                                *)
(* --------------------------------------------------------------------- *)

Section LoopFacts.
Variables instance_type tenancy os : string.

Local Abbreviation loop := (GetSKU_loop instance_type tenancy os).
Local Abbreviation hit := (matches instance_type tenancy os).

Lemma no_sku_yet : bool_decide (("" : string) ≠ "") = false.
Proof. reflexivity. Qed.

Lemma loop_no_match (l : list (string * Product)) (sku : string) :
  (∀ k p, (k, p) ∈ l → hit p = false) → loop l sku = Ok sku.
Proof.
  induction l as [|[k p] l IH]; cbn [GetSKU_loop]; intros Hno; [reflexivity|].
  rewrite (Hno k p) by left. apply IH. intros k' p' Hin. apply (Hno k'). right. exact Hin.
Qed.

Lemma loop_already_found (l : list (string * Product)) (sku : string) :
  sku ≠ "" → (∃ k p, (k, p) ∈ l ∧ hit p = true) → loop l sku = Error AmbiguousMatch.
Proof.
  intros Hsku. induction l as [|[k p] l IH]; cbn [GetSKU_loop].
  - intros (k & p & Hin & _). inversion Hin.
  - intros (k' & p' & Hin & Hhit). destruct (hit p) eqn:Hp.
    + rewrite bool_decide_true by exact Hsku. reflexivity.
    + apply IH. apply elem_of_cons in Hin as [[= -> ->]|Hin]; [congruence|eauto].
Qed.

Lemma loop_all_unnamed (l : list (string * Product)) :
  (∀ k p, (k, p) ∈ l → hit p = true → SKU p = "") → loop l "" = Ok "".
Proof.
  induction l as [|[k p] l IH]; cbn [GetSKU_loop]; intros Hall; [reflexivity|].
  assert (Hrest : loop l "" = Ok "").
  { apply IH. intros k' p' Hin. apply (Hall k'). right. exact Hin. }
  destruct (hit p) eqn:Hp; [|exact Hrest].
  rewrite no_sku_yet.
  rewrite (Hall k p) by (done || left). exact Hrest.
Qed.

Lemma loop_single (l : list (string * Product)) (k : string) (p : Product) :
  NoDup l.*1 → (k, p) ∈ l → hit p = true →
  (∀ k' p', (k', p') ∈ l → hit p' = true → k' = k) →
  loop l "" = Ok (SKU p).
Proof.
  induction l as [|[k0 p0] l IH]; cbn [GetSKU_loop]; intros Hnd Hin Hp Honly.
  - inversion Hin.
  - apply NoDup_cons in Hnd as [Hfresh Hnd].
    apply elem_of_cons in Hin as [[= <- <-]|Hin].
    + rewrite Hp. rewrite no_sku_yet.
      apply loop_no_match. intros k' p' Hin'.
      destruct (hit p') eqn:Hp'; [|reflexivity].
      exfalso. apply Hfresh.
      rewrite <- (Honly k' p') by (done || right; done).
      apply list_elem_of_fmap. exists (k', p'). split; [reflexivity|exact Hin'].
    + destruct (hit p0) eqn:Hp0.
      * exfalso. apply Hfresh.
        rewrite (Honly k0 p0) by (done || left).
        apply list_elem_of_fmap. exists (k, p). split; [reflexivity|exact Hin].
      * apply IH; try assumption.
        intros k' p' Hin'. apply Honly. right. exact Hin'.
Qed.

Lemma loop_two_named (l : list (string * Product)) (k1 k2 : string) (p1 p2 : Product) :
  k1 ≠ k2 →
  (k1, p1) ∈ l → hit p1 = true → SKU p1 ≠ "" →
  (k2, p2) ∈ l → hit p2 = true → SKU p2 ≠ "" →
  loop l "" = Error AmbiguousMatch.
Proof.
  intros Hne. induction l as [|[k p] l IH]; cbn [GetSKU_loop]; intros H1 Hh1 Hs1 H2 Hh2 Hs2.
  - inversion H1.
  - destruct (hit p) eqn:Hp.
    + rewrite no_sku_yet.
      destruct (decide (SKU p = "")) as [Hempty|Hnamed].
      * rewrite Hempty.
        apply elem_of_cons in H1 as [[= -> ->]|H1]; [congruence|].
        apply elem_of_cons in H2 as [[= -> ->]|H2]; [congruence|].
        apply IH; assumption.
      * apply loop_already_found; [exact Hnamed|].
        apply elem_of_cons in H1 as [[= -> ->]|H1]; [|eauto].
        apply elem_of_cons in H2 as [[= -> ->]|H2]; [congruence|eauto].
    + apply elem_of_cons in H1 as [[= -> ->]|H1]; [congruence|].
      apply elem_of_cons in H2 as [[= -> ->]|H2]; [congruence|].
      apply IH; assumption.
Qed.

(** The loop reports an error only after a match with a non-empty SKU
    has been recorded and another match is met. *)
Lemma loop_error_inv (l : list (string * Product)) (sku : string) (e : error) :
  NoDup l.*1 → loop l sku = Error e →
  e = AmbiguousMatch
  ∧ ∃ k2 p2, (k2, p2) ∈ l ∧ hit p2 = true
      ∧ (sku ≠ "" ∨ ∃ k1 p1, (k1, p1) ∈ l ∧ k1 ≠ k2 ∧ hit p1 = true ∧ SKU p1 ≠ "").
Proof.
  revert sku. induction l as [|[k p] l IH]; cbn [GetSKU_loop]; intros sku Hnd Hloop; [discriminate|].
  apply NoDup_cons in Hnd as [Hfresh Hnd].
  assert (Hother : ∀ k' p', (k', p') ∈ l → k ≠ k').
  { intros k' p' Hin ->. apply Hfresh, list_elem_of_fmap.
    exists (k', p'). split; [reflexivity|exact Hin]. }
  destruct (hit p) eqn:Hp.
  - case_bool_decide as Hsku.
    + injection Hloop as <-. split; [reflexivity|].
      exists k, p. split; [left|]. auto.
    + destruct (IH _ Hnd Hloop) as (-> & k2 & p2 & Hin & Hh & Hwhy).
      split; [reflexivity|]. exists k2, p2. split; [right; exact Hin|].
      split; [exact Hh|]. right.
      destruct Hwhy as [Hnamed|(k1 & p1 & Hin1 & Hne & Hh1 & Hs1)].
      * exists k, p. split; [left|]. split; [eapply Hother, Hin|]. auto.
      * exists k1, p1. split; [right; exact Hin1|]. auto.
  - destruct (IH _ Hnd Hloop) as (-> & k2 & p2 & Hin & Hh & Hwhy).
    split; [reflexivity|]. exists k2, p2. split; [right; exact Hin|].
    split; [exact Hh|].
    destruct Hwhy as [Hnamed|(k1 & p1 & Hin1 & Hne & Hh1 & Hs1)]; [left; exact Hnamed|].
    right. exists k1, p1. split; [right; exact Hin1|]. auto.
Qed.

End LoopFacts.

Section GetSKUFacts.
Context `{RT : Runtime}.
Variables (o : Offer) (instance_type tenancy os : string).

Lemma range_map_NoDup {V : Type} (m : gmap string V) : NoDup (range_map m).*1.
Proof. rewrite (range_map_perm V m). apply NoDup_fst_map_to_list. Qed.

(** No product matches: the empty SKU and no error. *)
Lemma GetSKU_none :
  (∀ k p, Products o !! k = Some p → matches instance_type tenancy os p = false) →
  GetSKU o instance_type tenancy os = Ok "".
Proof.
  intros Hno. apply loop_no_match. intros k p Hin.
  apply (Hno k), elem_of_range_map, Hin.
Qed.

(** Exactly one product matches: its SKU field. *)
Lemma GetSKU_one (k : string) (p : Product) :
  Products o !! k = Some p → matches instance_type tenancy os p = true →
  (∀ k' p', Products o !! k' = Some p' →
            matches instance_type tenancy os p' = true → k' = k) →
  GetSKU o instance_type tenancy os = Ok (SKU p).
Proof.
  intros Hk Hp Honly. apply (loop_single _ _ _ _ k p).
  - apply range_map_NoDup.
  - apply elem_of_range_map, Hk.
  - exact Hp.
  - intros k' p' Hin. apply Honly, elem_of_range_map, Hin.
Qed.

(** Two matching products that both carry a SKU: the error, in every
    iteration order. *)
Lemma GetSKU_two_named (k1 k2 : string) (p1 p2 : Product) :
  k1 ≠ k2 →
  Products o !! k1 = Some p1 → matches instance_type tenancy os p1 = true → SKU p1 ≠ "" →
  Products o !! k2 = Some p2 → matches instance_type tenancy os p2 = true → SKU p2 ≠ "" →
  GetSKU o instance_type tenancy os = Error AmbiguousMatch.
Proof.
  intros Hne H1 Hh1 Hs1 H2 Hh2 Hs2.
  apply (loop_two_named _ _ _ _ k1 k2 p1 p2); try assumption;
    apply elem_of_range_map; assumption.
Qed.

(** However many products match, if none of them carries a SKU there is
    no error. *)
Lemma GetSKU_all_unnamed :
  (∀ k p, Products o !! k = Some p →
          matches instance_type tenancy os p = true → SKU p = "") →
  GetSKU o instance_type tenancy os = Ok "".
Proof.
  intros Hall. apply loop_all_unnamed. intros k p Hin.
  apply (Hall k), elem_of_range_map, Hin.
Qed.

(** An error needs two matching products, one of which carries a SKU. *)
Lemma GetSKU_error_inv (e : error) :
  GetSKU o instance_type tenancy os = Error e →
  e = AmbiguousMatch
  ∧ ∃ k1 p1 k2 p2, k1 ≠ k2
      ∧ Products o !! k1 = Some p1 ∧ matches instance_type tenancy os p1 = true
      ∧ SKU p1 ≠ ""
      ∧ Products o !! k2 = Some p2 ∧ matches instance_type tenancy os p2 = true.
Proof.
  intros Herr.
  apply loop_error_inv in Herr as (-> & k2 & p2 & Hin2 & Hh2 & Hwhy);
    [|apply range_map_NoDup].
  split; [reflexivity|].
  destruct Hwhy as [Hne|(k1 & p1 & Hin1 & Hne & Hh1 & Hs1)]; [done|].
  exists k1, p1, k2, p2. repeat split; try assumption; apply elem_of_range_map; assumption.
Qed.

End GetSKUFacts.

(** C1 (failing input).  In [offer_two_unnamed] two different products
    match all four predicates, and [GetSKU] returns the empty SKU without
    an error, whatever the iteration order: the test [sku != ""] of line
    195 does not see a match whose SKU field is empty. *)
Theorem GetSKU_two_unnamed_matches (RT : Runtime) :
  Products offer_two_unnamed !! "A" = Some (product_of "")
  ∧ Products offer_two_unnamed !! "B" = Some (product_of "")
  ∧ matches "m4.4xlarge" "Shared" "Linux" (product_of "") = true
  ∧ GetSKU offer_two_unnamed "m4.4xlarge" "Shared" "Linux" = Ok "".
Proof.
  split; [reflexivity|]. split; [reflexivity|]. split; [reflexivity|].
  apply GetSKU_all_unnamed. intros k p Hk _.
  change (Products offer_two_unnamed)
    with (<["A" := product_of ""]> (<["B" := product_of ""]> (∅ : gmap string Product))) in Hk.
  apply lookup_insert_Some in Hk as [[_ <-]|[_ Hk]]; [reflexivity|].
  apply lookup_insert_Some in Hk as [[_ <-]|[_ Hk]]; [reflexivity|].
  rewrite lookup_empty in Hk. discriminate.
Qed.

(** With one named and one unnamed match the answer depends on the order
    in which the map is visited. *)
Lemma GetSKU_mixed_order_dependent :
  @GetSKU (sample_runtime false sample_doc offer_mixed) offer_mixed
     "m4.4xlarge" "Shared" "Linux" = Ok "B"
  ∧ @GetSKU (sample_runtime true sample_doc offer_mixed) offer_mixed
     "m4.4xlarge" "Shared" "Linux" = Error AmbiguousMatch.
Proof. split; vm_compute; reflexivity. Qed.

Example GetSKU_offer_ABC (RT : Runtime) :
  GetSKU offer_ABC "m4.4xlarge" "Shared" "Linux" = Ok "ABC".
Proof.
  apply (GetSKU_one _ _ _ _ "ABC" (product_of "ABC")); [reflexivity..|].
  intros k p Hk _. change (Products offer_ABC) with ({[ "ABC" := product_of "ABC" ]} : gmap string Product) in Hk.
  apply lookup_singleton_Some in Hk as [<- _]. reflexivity.
Qed.

Example GetSKU_offer_ABC_dedicated (RT : Runtime) :
  GetSKU offer_ABC "m4.4xlarge" "Dedicated" "Linux" = Ok "".
Proof.
  apply GetSKU_none. intros k p Hk.
  change (Products offer_ABC) with ({[ "ABC" := product_of "ABC" ]} : gmap string Product) in Hk.
  apply lookup_singleton_Some in Hk as [_ <-]. reflexivity.
Qed.

(* --------------------------------------------------------------------- *)
(* Stepping through the monad                                            *)
(* --------------------------------------------------------------------- *)

(** Case analysis on the stage at which a refused write fails. *)
Ltac failed_write_cases :=
  unfold ioutil.failed_write; cbn [write_failure emit store];
  match goal with
  | |- context [write_failure ?w ?n] => destruct (write_failure w n)
  end.

Lemma stat_then_fresh {A : Type} (name : string) (rest : bool → M A) (w : World) :
  (stat ← try (os.Stat name); fresh ← is_fresh stat; rest fresh) w
  = rest (fresh_in w name) (emit (EvStat name) w).
Proof.
  unfold mbind, M_bind, try, os.Stat, fresh_in.
  destruct (files w !! name) as [f|]; reflexivity.
Qed.

Lemma string_length_app (a b : string) :
  String.length (a +:+ b) = (String.length a + String.length b)%nat.
Proof.
  induction a as [|c a IH]; [reflexivity|].
  change (String c a +:+ b) with (String c (a +:+ b)). simpl. rewrite IH. reflexivity.
Qed.

Lemma cache_file_not_offers (instance_type tenancy operating_system term : string) :
  cache_file_of instance_type tenancy operating_system term ≠ offers_file.
Proof.
  intros Heq. apply (f_equal String.length) in Heq.
  unfold cache_file_of, offers_file in Heq.
  rewrite !string_length_app, GetMD5Hash_length in Heq. simpl in Heq. lia.
Qed.

Lemma Sub_mono (t t' u : Z) : t ≤ t' → time.Sub t u ≤ time.Sub t' u.
Proof.
  unfold time.Sub, time.maxDuration, time.minDuration. intros Hle.
  repeat match goal with
         | |- context [Z.ltb ?a ?b] => destruct (Z.ltb_spec a b)
         end; lia.
Qed.

Lemma Sub_small (t d : Z) :
  - 2 ^ 63 ≤ d ≤ 2 ^ 63 - 1 → time.Sub (t + d) t = d.
Proof.
  unfold time.Sub, time.maxDuration, time.minDuration. intros Hd.
  replace (t + d - t) with d by lia.
  repeat match goal with
         | |- context [Z.ltb ?a ?b] => destruct (Z.ltb_spec a b)
         end; lia.
Qed.

(** Once a blob is stale it stays stale while the clock moves on. *)
Lemma stale_stays_stale (w : World) (name : string) (d : Z) :
  0 ≤ d → fresh_in w name = false → fresh_in (elapse d w) name = false.
Proof.
  unfold fresh_in. simpl. intros Hd.
  destruct (files w !! name) as [f|]; [|reflexivity].
  unfold time.Seconds_lt. rewrite !Z.ltb_ge. intros Hstale.
  pose proof (Sub_mono (clock w) (clock w + d) (ModTime f)). lia.
Qed.

Section PipelineFacts.
Context `{RT : Runtime}.
Variables instance_type tenancy operating_system term : string.

Local Abbreviation name := (cache_file_of instance_type tenancy operating_system term).
Local Abbreviation get_price := (GetEC2Price instance_type tenancy operating_system term).

Lemma GetEC2Price_hit (w : World) (f : File) :
  files w !! name = Some f → fresh_in w name = true →
  get_price w
  = (if read_fault w name then lift (Error (PathError "open" name))
     else lift (binaryIO.Read (Contents f)))
      (emit (EvReadFile name)
         (emit (EvLog ("Reading content from cache file: " +:+ name))
            (emit (EvStat name) w))).
Proof.
  intros Hf Hfresh. unfold GetEC2Price. rewrite stat_then_fresh, Hfresh.
  unfold mbind, M_bind, log_Printf, event, ioutil.ReadFile. simpl.
  rewrite Hf. destruct (read_fault w name); simpl; [reflexivity|].
  destruct (lift _ _) as [[v|e|fmt e] w'] eqn:E; reflexivity.
Qed.

(** [GetOffers] when the offer file is cached and fresh. *)
Lemma GetOffers_fresh (url : string) (w : World) (f : File) :
  files w !! offers_file = Some f → fresh_in w offers_file = true →
  let w_read :=
    emit (EvReadFile offers_file)
      (emit (EvLog ("Reading content from cache file: " +:+ offers_file))
         (emit (EvStat offers_file) w)) in
  GetOffers url w
  = if read_fault w offers_file then (Err (PathError "open" offers_file), w_read)
    else if write_fault w offers_file then
      ioutil.failed_write offers_file (Contents f) w_read
    else
      (match json_Unmarshal (Contents f) with
       | Some offer => Ret offer
       | None => Err SyntaxError
       end,
       emit EvUnmarshal
         (emit (EvWriteFile offers_file (Contents f))
            (store offers_file {| Contents := Contents f; ModTime := clock w |} w_read))).
Proof.
  intros Hf Hfresh. unfold GetOffers. fold offers_file.
  rewrite stat_then_fresh, Hfresh.
  unfold mbind, M_bind, log_Printf, event, ioutil.ReadFile. simpl.
  rewrite Hf. destruct (read_fault w offers_file); simpl; [reflexivity|].
  unfold ioutil.WriteFile. simpl.
  destruct (write_fault w offers_file); simpl.
  { unfold ioutil.failed_write. simpl.
    destruct (write_failure w offers_file); reflexivity. }
  unfold Unmarshal, mbind, M_bind, event, lift. simpl.
  destruct (json_Unmarshal (Contents f)); reflexivity.
Qed.

(** [GetOffers] when the offer file is absent or stale. *)
Lemma GetOffers_stale (url : string) (w : World) :
  fresh_in w offers_file = false →
  let w_get :=
    emit (EvHttpGet url)
      (emit (EvLog ("Fetching content from AWS API: " +:+ url))
         (emit (EvStat offers_file) w)) in
  GetOffers url w
  = match network w url with
    | BodyOk body =>
        if write_fault w offers_file then
          ioutil.failed_write offers_file body w_get
        else
          (match json_Unmarshal body with
           | Some offer => Ret offer
           | None => Err SyntaxError
           end,
           emit EvUnmarshal
             (emit (EvWriteFile offers_file body)
                (store offers_file {| Contents := body; ModTime := clock w |} w_get)))
    | _ => (Err (HttpError url), w_get)
    end.
Proof.
  intros Hstale. unfold GetOffers. fold offers_file.
  rewrite stat_then_fresh, Hstale.
  unfold mbind, M_bind, log_Printf, event, http.Get. simpl.
  destruct (network w url) as [| |body]; simpl; [reflexivity..|].
  unfold ioutil.WriteFile. simpl.
  destruct (write_fault w offers_file); simpl.
  { unfold ioutil.failed_write. simpl.
    destruct (write_failure w offers_file); reflexivity. }
  unfold Unmarshal, mbind, M_bind, event, lift. simpl.
  destruct (json_Unmarshal body); reflexivity.
Qed.

(** What [GetOffers] leaves alone: the clock, the faults, the network,
    every file but the cached offer file, and the trace so far. *)
Lemma GetOffers_frame (url : string) (w w' : World) (r : outcome Offer) :
  GetOffers url w = (r, w') →
  clock w' = clock w ∧ read_fault w' = read_fault w
  ∧ write_fault w' = write_fault w ∧ network w' = network w
  ∧ (∀ n, n ≠ offers_file → files w' !! n = files w !! n)
  ∧ (∃ evs, trace w' = trace w ++ evs).
Proof.
  destruct (fresh_in w offers_file) eqn:Hfresh.
  - assert (∃ f, files w !! offers_file = Some f) as [f Hf].
    { unfold fresh_in in Hfresh. destruct (files w !! offers_file); [eauto|discriminate]. }
    rewrite (GetOffers_fresh url w f Hf Hfresh). cbv zeta.
    destruct (read_fault w offers_file);
      [|destruct (write_fault w offers_file);
        [failed_write_cases|]];
      intros [= <- <-]; simpl; repeat split; auto;
      try (intros n Hn; apply lookup_insert_ne; congruence);
      rewrite <- ?app_assoc; eexists; reflexivity.
  - rewrite (GetOffers_stale url w Hfresh). cbv zeta.
    destruct (network w url) as [| |body];
      [| |destruct (write_fault w offers_file);
          [failed_write_cases|]];
      intros [= <- <-]; simpl; repeat split; auto;
      try (intros n Hn; apply lookup_insert_ne; congruence);
      rewrite <- ?app_assoc; eexists; reflexivity.
Qed.


(** The cache-miss branch of [GetEC2Price], case by case. *)
Lemma GetEC2Price_miss (w : World) :
  fresh_in w name = false →
  get_price w
  = match GetOffers URL (emit (EvStat name) w) with
    | (Ret offer, w1) =>
        match GetSKU offer instance_type tenancy operating_system with
        | Error e => (Err e, emit EvGetSKU w1)
        | Ok sku =>
            match GetPrice offer sku term with
            | Error e => (Err e, emit EvGetPrice (emit EvGetSKU w1))
            | Ok price =>
                let w3 := emit EvParseFloat (emit EvGetPrice (emit EvGetSKU w1)) in
                match strconv_ParseFloat (Value price) with
                | None => (Err (NumError (Value price)), w3)
                | Some price_f =>
                    let buf := binary.PutUint64 (Float64bits price_f) in
                    if write_fault w1 name then ioutil.failed_write name buf w3
                    else
                      (Ret price_f,
                       emit (EvWriteFile name buf)
                         (store name {| Contents := buf; ModTime := clock w1 |} w3))
                end
            end
        end
    | (Err e, w1) =>
        (Exit "Could not get offers: %s" e, emit (EvLog "Could not get offers: %s") w1)
    | (Exit format e, w1) => (Exit format e, w1)
    end.
Proof.
  intros Hstale. unfold GetEC2Price. rewrite stat_then_fresh, Hstale.
  unfold mbind at 1. unfold M_bind at 1. unfold or_else.
  destruct (GetOffers URL (emit (EvStat name) w)) as [[offer|e|fmt e] w1]; [|reflexivity..].
  unfold mbind, M_bind, event, lift. simpl.
  destruct (GetSKU offer _ _ _) as [sku|e]; [|reflexivity].
  destruct (GetPrice offer sku term) as [price|e]; [|reflexivity].
  unfold ParseFloat, mbind, M_bind, event, lift. simpl.
  destruct (strconv_ParseFloat (Value price)) as [price_f|]; [|reflexivity].
  unfold ioutil.WriteFile. simpl.
  destruct (write_fault w1 name); [|reflexivity].
  failed_write_cases; reflexivity.
Qed.

Lemma GetOffers_keeps_write_failure (url : string) (w w' : World) (r : outcome Offer) :
  GetOffers url w = (r, w') → write_failure w' = write_failure w.
Proof.
  destruct (fresh_in w offers_file) eqn:Hfresh.
  - assert (∃ f, files w !! offers_file = Some f) as [f Hf].
    { unfold fresh_in in Hfresh. destruct (files w !! offers_file); [eauto|discriminate]. }
    rewrite (GetOffers_fresh url w f Hf Hfresh). cbv zeta.
    destruct (read_fault w offers_file);
      [|destruct (write_fault w offers_file);
        [failed_write_cases|]];
      intros [= <- <-]; reflexivity.
  - rewrite (GetOffers_stale url w Hfresh). cbv zeta.
    destruct (network w url) as [| |body];
      [| |destruct (write_fault w offers_file);
          [failed_write_cases|]];
      intros [= <- <-]; reflexivity.
Qed.

(** A call that does not return a price writes nothing under the
    query's cache key, unless it is the final write that failed after
    having opened the file. *)
Lemma GetEC2Price_failure_frame (w w' : World) (r : outcome float64) :
  get_price w = (r, w') → (∀ v, r ≠ Ret v) →
  r ≠ Err (PathError "write" name) →
  files w' !! name = files w !! name.
Proof.
  destruct (fresh_in w name) eqn:Hfresh.
  - assert (∃ f, files w !! name = Some f) as [f Hf].
    { unfold fresh_in in Hfresh. destruct (files w !! name); [eauto|discriminate]. }
    rewrite (GetEC2Price_hit w f Hf Hfresh).
    destruct (read_fault w name); [intros [= <- <-]; reflexivity|].
    unfold lift. destruct (binaryIO.Read _); intros [= <- <-]; reflexivity.
  - rewrite (GetEC2Price_miss w Hfresh).
    destruct (GetOffers URL (emit (EvStat name) w)) as [[offer|e|fmt e] w1] eqn:Hoffers;
      apply GetOffers_frame in Hoffers as (_ & _ & _ & _ & Hfiles & _);
      specialize (Hfiles name (cache_file_not_offers _ _ _ _)); simpl in Hfiles.
    + destruct (GetSKU offer _ _ _) as [sku|e]; [|intros [= <- <-] _ _; exact Hfiles].
      destruct (GetPrice offer sku term) as [price|e]; [|intros [= <- <-] _ _; exact Hfiles].
      cbv zeta.
      destruct (strconv_ParseFloat (Value price)) as [price_f|];
        [|intros [= <- <-] _ _; exact Hfiles].
      destruct (write_fault w1 name).
      * failed_write_cases; intros [= <- <-] _ Hnot_torn; [exact Hfiles|].
        exfalso. apply Hnot_torn. reflexivity.
      * intros [= <- <-] Hfail _. exfalso. apply (Hfail price_f). reflexivity.
    + intros [= <- <-] _ _. exact Hfiles.
    + intros [= <- <-] _ _. exact Hfiles.
Qed.

(** A call that returns a price leaves that price, encoded, under the
    query's cache key. *)
Lemma GetEC2Price_success_cached (w w' : World) (v : float64) :
  get_price w = (Ret v, w') →
  ∃ f, files w' !! name = Some f ∧ binaryIO.Read (Contents f) = Ok v
       ∧ read_fault w' = read_fault w.
Proof.
  destruct (fresh_in w name) eqn:Hfresh.
  - assert (∃ f, files w !! name = Some f) as [f Hf].
    { unfold fresh_in in Hfresh. destruct (files w !! name); [eauto|discriminate]. }
    rewrite (GetEC2Price_hit w f Hf Hfresh).
    destruct (read_fault w name); [discriminate|].
    unfold lift. destruct (binaryIO.Read _) as [v'|e] eqn:Hread; [|discriminate].
    intros [= <- <-]. exists f. simpl. auto.
  - rewrite (GetEC2Price_miss w Hfresh).
    destruct (GetOffers URL (emit (EvStat name) w)) as [[offer|e|fmt e] w1] eqn:Hoffers;
      [|discriminate..].
    apply GetOffers_frame in Hoffers as (_ & Hrf & _).
    destruct (GetSKU offer _ _ _) as [sku|e]; [|discriminate].
    destruct (GetPrice offer sku term) as [price|e]; [|discriminate].
    cbv zeta.
    destruct (strconv_ParseFloat (Value price)) as [price_f|]; [|discriminate].
    destruct (write_fault w1 name); [failed_write_cases; discriminate|].
    intros [= <- <-]. eexists. simpl. rewrite lookup_insert_eq.
    split; [reflexivity|]. simpl. split; [apply Read_PutUint64|exact Hrf].
Qed.


Lemma fresh_in_Some (w : World) (n : string) (f : File) :
  files w !! n = Some f →
  fresh_in w n = true ↔ time.Sub (clock w) (ModTime f) < MAX_CACHE_AGE * time.Second.
Proof.
  intros Hf. unfold fresh_in, time.Seconds_lt. rewrite Hf. apply Z.ltb_lt.
Qed.


Lemma GetOffers_trace_head (url : string) (w w' : World) (r : outcome Offer) :
  GetOffers url w = (r, w') →
  ∃ evs, trace w' = trace w ++ EvStat offers_file :: evs.
Proof.
  destruct (fresh_in w offers_file) eqn:Hfresh.
  - assert (∃ f, files w !! offers_file = Some f) as [f Hf].
    { unfold fresh_in in Hfresh. destruct (files w !! offers_file); [eauto|discriminate]. }
    rewrite (GetOffers_fresh url w f Hf Hfresh). cbv zeta.
    destruct (read_fault w offers_file);
      [|destruct (write_fault w offers_file);
        [failed_write_cases|]];
      intros [= <- <-]; simpl; rewrite <- ?app_assoc; eexists; reflexivity.
  - rewrite (GetOffers_stale url w Hfresh). cbv zeta.
    destruct (network w url) as [| |body];
      [| |destruct (write_fault w offers_file);
          [failed_write_cases|]];
      intros [= <- <-]; simpl; rewrite <- ?app_assoc; eexists; reflexivity.
Qed.

(** On the cache-miss branch the call goes on to [GetOffers]. *)
Lemma GetEC2Price_miss_trace (w w' : World) (r : outcome float64) :
  fresh_in w name = false → get_price w = (r, w') →
  ∃ evs, trace w' = trace w ++ EvStat name :: EvStat offers_file :: evs.
Proof.
  intros Hstale. rewrite (GetEC2Price_miss w Hstale).
  destruct (GetOffers URL (emit (EvStat name) w)) as [[offer|e|fmt e] w1] eqn:Hoffers;
    apply GetOffers_trace_head in Hoffers as [evs Hevs]; simpl in Hevs;
    rewrite <- app_assoc in Hevs; simpl in Hevs.
  - destruct (GetSKU offer _ _ _) as [sku|e];
      [|intros [= <- <-]; simpl; rewrite Hevs, <- app_assoc; simpl; eauto].
    destruct (GetPrice offer sku term) as [price|e];
      [|intros [= <- <-]; simpl; rewrite Hevs, <- !app_assoc; simpl; eauto].
    cbv zeta.
    destruct (strconv_ParseFloat (Value price)) as [price_f|];
      [|intros [= <- <-]; simpl; rewrite Hevs, <- !app_assoc; simpl; eauto].
    destruct (write_fault w1 name); [failed_write_cases|]; intros [= <- <-]; simpl;
      rewrite Hevs, <- !app_assoc; simpl; eauto.
  - intros [= <- <-]; simpl; rewrite Hevs, <- !app_assoc; simpl; eauto.
  - intros [= <- <-]; simpl; rewrite Hevs; eauto.
Qed.

Lemma GetEC2Price_miss_clock (w w' : World) (r : outcome float64) :
  fresh_in w name = false → get_price w = (r, w') → clock w' = clock w.
Proof.
  intros Hstale. rewrite (GetEC2Price_miss w Hstale).
  destruct (GetOffers URL (emit (EvStat name) w)) as [[offer|e|fmt e] w1] eqn:Hoffers;
    apply GetOffers_frame in Hoffers as (Hclock & _); simpl in Hclock.
  - destruct (GetSKU offer _ _ _) as [sku|e]; [|intros [= <- <-]; exact Hclock].
    destruct (GetPrice offer sku term) as [price|e]; [|intros [= <- <-]; exact Hclock].
    cbv zeta.
    destruct (strconv_ParseFloat (Value price)) as [price_f|];
      [|intros [= <- <-]; exact Hclock].
    destruct (write_fault w1 name); [failed_write_cases|];
      intros [= <- <-]; exact Hclock.
  - intros [= <- <-]. exact Hclock.
  - intros [= <- <-]. exact Hclock.
Qed.

(** The errors the cache-miss branch can return. *)
Lemma GetEC2Price_miss_errors (w w' : World) (e : error) :
  fresh_in w name = false → get_price w = (Err e, w') →
  e = AmbiguousMatch ∨ e = PriceNotFound ∨ (∃ s, e = NumError s)
  ∨ e = PathError "open" name ∨ e = PathError "write" name.
Proof.
  intros Hstale. rewrite (GetEC2Price_miss w Hstale).
  destruct (GetOffers URL (emit (EvStat name) w)) as [[offer|e0|fmt e0] w1];
    [|discriminate..].
  destruct (GetSKU offer _ _ _) as [sku|e0] eqn:Hsku.
  - destruct (GetPrice offer sku term) as [price|e0] eqn:Hprice.
    + cbv zeta. destruct (strconv_ParseFloat (Value price)) as [price_f|].
      * destruct (write_fault w1 name); [|discriminate].
        failed_write_cases; intros [= <- <-]; auto.
      * intros [= <- <-]. eauto.
    + intros [= <- <-]. right. left.
      unfold GetPrice in Hprice. destruct (GetPrice_terms _); congruence.
  - intros [= <- <-]. left. apply GetSKU_error_inv in Hsku as [-> _]. reflexivity.
Qed.

(** C3.  A call on the cache-miss branch that fails with the error of
    [GetSKU] (the ambiguous match), of [GetPrice] (the not-found price
    error, which is also what a query without a match ends in) or of
    [ParseFloat] leaves the entry of the query's cache key as it was.
    The same holds for every call that does not return a price, the
    process exit included, with one exception: the final write failing
    after it has opened, and so truncated, the file.  That exception
    apart, the errors the branch returns are those three and the failure
    to open the cache file; the entry is still not fresh at any later
    time, so the next call takes the cache-miss branch again and starts
    with [GetOffers]. *)
Theorem GetEC2Price_no_negative_caching (w w' : World) (r : outcome float64) :
  fresh_in w name = false →
  get_price w = (r, w') → (∀ v, r ≠ Ret v) →
  r ≠ Err (PathError "write" name) →
  files w' !! name = files w !! name
  ∧ (∀ e, r = Err e →
       e = AmbiguousMatch ∨ e = PriceNotFound ∨ (∃ s, e = NumError s)
       ∨ e = PathError "open" name)
  ∧ ∀ d, 0 ≤ d →
      fresh_in (elapse d w') name = false
      ∧ ∃ r2 w2 evs, get_price (elapse d w') = (r2, w2)
          ∧ trace w2 = trace w' ++ EvStat name :: EvStat offers_file :: evs.
Proof.
  intros Hstale Hcall Hfail Hnot_torn.
  pose proof (GetEC2Price_failure_frame w w' r Hcall Hfail Hnot_torn) as Hsame.
  split; [exact Hsame|]. split.
  { intros e ->.
    destruct (GetEC2Price_miss_errors w w' e Hstale Hcall)
      as [He|[He|[He|[He|He]]]]; auto.
    exfalso. apply Hnot_torn. rewrite He. reflexivity. }
  intros d Hd.
  assert (Hstale' : fresh_in (elapse d w') name = false).
  { apply stale_stays_stale; [exact Hd|].
    pose proof (GetEC2Price_miss_clock w w' r Hstale Hcall) as Hclock.
    unfold fresh_in in *. rewrite Hsame, Hclock. exact Hstale. }
  split; [exact Hstale'|].
  destruct (get_price (elapse d w')) as [r2 w2] eqn:Hnext.
  destruct (GetEC2Price_miss_trace _ _ _ Hstale' Hnext) as [evs Hevs].
  exists r2, w2, evs. split; [reflexivity|exact Hevs].
Qed.

(** C4 (failing input).  On the cache-miss branch an error returned by
    [GetOffers], a failed fetch or a failed decode alike, is not
    returned by [GetEC2Price]: line 129 calls [log.Fatalf] and the
    process exits inside the call. *)
Theorem GetEC2Price_GetOffers_error_exits (w w1 : World) (e : error) :
  fresh_in w name = false →
  GetOffers URL (emit (EvStat name) w) = (Err e, w1) →
  get_price w
  = (Exit "Could not get offers: %s" e, emit (EvLog "Could not get offers: %s") w1)
  ∧ ∀ e' w', get_price w ≠ (Err e', w').
Proof.
  intros Hstale Hoffers. rewrite (GetEC2Price_miss w Hstale), Hoffers.
  split; [reflexivity|]. discriminate.
Qed.


(** The sibling paths of line 129: an error of [GetSKU] is returned to
    the caller. *)
Lemma GetEC2Price_GetSKU_error_returned (w w1 : World) (offer : Offer) (e : error) :
  fresh_in w name = false →
  GetOffers URL (emit (EvStat name) w) = (Ret offer, w1) →
  GetSKU offer instance_type tenancy operating_system = Error e →
  get_price w = (Err e, emit EvGetSKU w1).
Proof.
  intros Hstale Hoffers Hsku. rewrite (GetEC2Price_miss w Hstale), Hoffers, Hsku.
  reflexivity.
Qed.

(** C5 (failing input).  When the cached offer file is fresh, readable
    and writable, [GetOffers] does not fetch, but it does write: line
    239 stores the bytes just read back under the same name, and the
    modification time of the file becomes the current time. *)
Theorem GetOffers_cache_hit_rewrites (url : string) (w : World) (f : File) :
  files w !! offers_file = Some f →
  time.Sub (clock w) (ModTime f) < MAX_CACHE_AGE * time.Second →
  read_fault w offers_file = false → write_fault w offers_file = false →
  ∃ w', GetOffers url w
        = (match json_Unmarshal (Contents f) with
           | Some offer => Ret offer
           | None => Err SyntaxError
           end, w')
    ∧ trace w'
      = trace w ++ [EvStat offers_file;
                    EvLog ("Reading content from cache file: " +:+ offers_file);
                    EvReadFile offers_file;
                    EvWriteFile offers_file (Contents f);
                    EvUnmarshal]
    ∧ files w' !! offers_file
      = Some {| Contents := Contents f; ModTime := clock w |}.
Proof.
  intros Hf Hage Hr Hw.
  assert (Hfresh : fresh_in w offers_file = true)
    by (apply (fresh_in_Some w offers_file f Hf), Hage).
  rewrite (GetOffers_fresh url w f Hf Hfresh). cbv zeta. rewrite Hr, Hw.
  eexists. split; [reflexivity|]. simpl. rewrite <- !app_assoc. split; [reflexivity|].
  apply lookup_insert_eq.
Qed.

Lemma Sub_within (t d : Z) :
  d < MAX_CACHE_AGE * time.Second →
  time.Sub (t + d) t < MAX_CACHE_AGE * time.Second.
Proof.
  unfold time.Sub, time.maxDuration, time.minDuration, MAX_CACHE_AGE, time.Second.
  intros Hd. replace (t + d - t) with d by lia.
  repeat match goal with
         | |- context [Z.ltb ?a ?b] => destruct (Z.ltb_spec a b)
         end; lia.
Qed.

Lemma stale_not_now (w : World) (n : string) (f : File) :
  fresh_in w n = false → files w !! n = Some f → ModTime f ≠ clock w.
Proof.
  unfold fresh_in, time.Seconds_lt. intros Hstale Hf. rewrite Hf in Hstale.
  apply Z.ltb_ge in Hstale. intros Heq. rewrite Heq in Hstale.
  pose proof (Sub_within (clock w) 0) as Hzero.
  rewrite Z.add_0_r in Hzero.
  unfold MAX_CACHE_AGE, time.Second in *. lia.
Qed.

(** C9.  When [GetOffers] fetches (the cached offer file is absent or
    stale) and returns the decode error, the fetched bytes are already
    stored under the offer file's name, with the current time: the
    write comes before the decode, and the entry differs from what it
    was.  While those bytes are fresh every later [GetOffers] reads
    them back from the store without fetching and fails on them again
    (or fails to read them). *)
Theorem GetOffers_corrupt_bytes_cached (url : string) (w w' : World) :
  fresh_in w offers_file = false →
  GetOffers url w = (Err SyntaxError, w') →
  ∃ body,
    network w url = BodyOk body ∧ json_Unmarshal body = None
    ∧ files w' !! offers_file = Some {| Contents := body; ModTime := clock w |}
    ∧ files w' !! offers_file ≠ files w !! offers_file
    ∧ trace w'
      = trace w ++ [EvStat offers_file;
                    EvLog ("Fetching content from AWS API: " +:+ url);
                    EvHttpGet url;
                    EvWriteFile offers_file body;
                    EvUnmarshal]
    ∧ ∀ (d : Z) (url' : string),
        d < MAX_CACHE_AGE * time.Second →
        ∃ w2, GetOffers url' (elapse d w')
              = (if read_fault w offers_file then Err (PathError "open" offers_file)
                 else Err SyntaxError, w2)
          ∧ trace w2
            = trace w' ++ [EvStat offers_file;
                           EvLog ("Reading content from cache file: " +:+ offers_file);
                           EvReadFile offers_file]
              ++ (if read_fault w offers_file then []
                  else [EvWriteFile offers_file body; EvUnmarshal]).
Proof.
  intros Hstale. rewrite (GetOffers_stale url w Hstale). cbv zeta.
  destruct (network w url) as [| |body]; [discriminate..|].
  destruct (write_fault w offers_file) eqn:Hwf;
    [failed_write_cases; discriminate|].
  destruct (json_Unmarshal body) as [offer|] eqn:Hjson; [discriminate|].
  intros [= <-]. exists body.
  split; [reflexivity|]. split; [exact Hjson|].
  split; [simpl; apply lookup_insert_eq|].
  split.
  { simpl. rewrite lookup_insert_eq.
    destruct (files w !! offers_file) as [f|] eqn:Hf; [|discriminate].
    intros [= Heq]. apply (stale_not_now w offers_file f Hstale Hf).
    rewrite <- Heq. reflexivity. }
  split; [simpl; rewrite <- !app_assoc; reflexivity|].
  intros d url' Hd.
  set (w1 := emit EvUnmarshal _).
  assert (Hf1 : files (elapse d w1) !! offers_file
                = Some {| Contents := body; ModTime := clock w |})
    by (simpl; apply lookup_insert_eq).
  assert (Hfresh1 : fresh_in (elapse d w1) offers_file = true).
  { apply (fresh_in_Some _ _ _ Hf1). simpl. apply Sub_within, Hd. }
  rewrite (GetOffers_fresh url' _ _ Hf1 Hfresh1). cbv zeta.
  change (read_fault (elapse d w1)) with (read_fault w).
  change (write_fault (elapse d w1)) with (write_fault w).
  destruct (read_fault w offers_file).
  - eexists. split; [reflexivity|]. simpl. rewrite <- !app_assoc. reflexivity.
  - rewrite Hwf. simpl Contents. rewrite Hjson.
    eexists. split; [reflexivity|]. simpl. rewrite <- !app_assoc. reflexivity.
Qed.


(** C10 (amended).  [GetSKU] tells "found" from "not found" by the
    SKU string alone.  A single matching product whose SKU field is
    empty gives the empty SKU and no error; [GetEC2Price] then asks
    [GetPrice] for the empty SKU, so the call fails with the not-found
    price error exactly when nothing is listed under [Terms[term][""]],
    and a price it returns is one listed there.  The duplicate test
    fires only when an earlier match had a non-empty SKU: an error
    needs two matching products one of which has a non-empty SKU, and
    matches that all have the empty SKU never raise it. *)
Theorem GetSKU_empty_SKU_sentinel (o : Offer) :
  (∀ k p,
     Products o !! k = Some p →
     matches instance_type tenancy operating_system p = true → SKU p = "" →
     (∀ k' p', Products o !! k' = Some p' →
               matches instance_type tenancy operating_system p' = true → k' = k) →
     GetSKU o instance_type tenancy operating_system = Ok "")
  ∧ (∀ w w1 r w',
       fresh_in w name = false →
       GetOffers URL (emit (EvStat name) w) = (Ret o, w1) →
       GetSKU o instance_type tenancy operating_system = Ok "" →
       get_price w = (r, w') →
       (r = Err PriceNotFound ↔ ¬ ∃ currency value, price_listed o "" term currency value)
       ∧ (∀ v, r = Ret v →
            ∃ price, GetPrice o "" term = Ok price
                     ∧ price_listed o "" term (Currency price) (Value price)
                     ∧ strconv_ParseFloat (Value price) = Some v))
  ∧ (∀ e, GetSKU o instance_type tenancy operating_system = Error e →
       e = AmbiguousMatch
       ∧ ∃ k1 p1 k2 p2, k1 ≠ k2
           ∧ Products o !! k1 = Some p1
           ∧ matches instance_type tenancy operating_system p1 = true
           ∧ SKU p1 ≠ ""
           ∧ Products o !! k2 = Some p2
           ∧ matches instance_type tenancy operating_system p2 = true)
  ∧ ((∀ k p, Products o !! k = Some p →
             matches instance_type tenancy operating_system p = true → SKU p = "") →
     GetSKU o instance_type tenancy operating_system = Ok "").
Proof.
  split.
  { intros k p Hk Hp Hempty Honly. rewrite <- Hempty.
    apply (GetSKU_one _ _ _ _ k p); assumption. }
  split.
  { intros w w1 r w' Hstale Hoffers Hsku.
    rewrite (GetEC2Price_miss w Hstale), Hoffers, Hsku.
    pose proof (GetPrice_PriceNotFound o "" term) as Hnone.
    pose proof (GetPrice_Ok o "" term) as Hsome.
    destruct (GetPrice o "" term) as [price|e] eqn:Hprice.
    - assert (Hlisted : ∃ c v, price_listed o "" term c v) by eauto.
      cbv zeta. destruct (strconv_ParseFloat (Value price)) as [price_f|] eqn:Hparse.
      + destruct (write_fault w1 name); [failed_write_cases|];
          intros [= <- <-]; (split; [split|]);
          try discriminate; try (intros Hno; exfalso; exact (Hno Hlisted)).
        intros v [= <-]. exists price. auto.
      + intros [= <- <-]. split; [split|]; try discriminate.
        intros Hno; exfalso; exact (Hno Hlisted).
    - assert (e = PriceNotFound) as ->.
      { unfold GetPrice in Hprice. destruct (GetPrice_terms _); congruence. }
      intros [= <- <-]. split; [|discriminate].
      split; [intros _; apply Hnone; reflexivity|reflexivity]. }
  split; [apply GetSKU_error_inv|apply GetSKU_all_unnamed].
Qed.

End PipelineFacts.

(* --------------------------------------------------------------------- *)
(* The statements at sample inputs                                       *)
(* --------------------------------------------------------------------- *)

(** The scenario of the specification, on an empty cache. *)
Example GetEC2Price_offer_ABC :
  fst (@GetEC2Price runtime_ABC "m4.4xlarge" "Shared" "Linux" "OnDemand" world_online)
  = Ret (Float64frombits 0x3fee978d4fdf3b64).
Proof. vm_compute. reflexivity. Qed.

Example GetEC2Price_offer_ABC_dedicated :
  fst (@GetEC2Price runtime_ABC "m4.4xlarge" "Dedicated" "Linux" "OnDemand" world_online)
  = Err PriceNotFound.
Proof. vm_compute. reflexivity. Qed.

Lemma GetPrice_spec_witness :
  Terms offer_ABC !! "Reserved" = None
  ∧ @GetPrice runtime_ABC offer_ABC "ABC" "Reserved" = Error PriceNotFound.
Proof.
  assert (H : Terms offer_ABC !! "Reserved" = None) by reflexivity.
  split; [exact H|].
  destruct (@GetPrice_spec runtime_ABC offer_ABC "ABC" "Reserved") as (_ & _ & _ & Habsent & _).
  exact (Habsent H).
Defined.


Lemma GetEC2Price_no_negative_caching_witness :
  fresh_in world_cached_offers dedicated_cache_file = false
  ∧ fst (@GetEC2Price runtime_ABC "m4.4xlarge" "Dedicated" "Linux" "OnDemand" world_cached_offers)
    = Err PriceNotFound
  ∧ files (snd (@GetEC2Price runtime_ABC "m4.4xlarge" "Dedicated" "Linux" "OnDemand"
                  world_cached_offers)) !! dedicated_cache_file
    = files world_cached_offers !! dedicated_cache_file.
Proof.
  assert (H1 : fresh_in world_cached_offers dedicated_cache_file = false)
    by (vm_compute; reflexivity).
  assert (H2 : fst (@GetEC2Price runtime_ABC "m4.4xlarge" "Dedicated" "Linux" "OnDemand"
                      world_cached_offers) = Err PriceNotFound)
    by (vm_compute; reflexivity).
  split; [exact H1|]. split; [exact H2|].
  refine (proj1 (@GetEC2Price_no_negative_caching runtime_ABC
                   "m4.4xlarge" "Dedicated" "Linux" "OnDemand"
                   world_cached_offers _ _ H1 (surjective_pairing _) _ _)).
  - intros v. rewrite H2. discriminate.
  - rewrite H2. discriminate.
Defined.

Lemma GetEC2Price_GetOffers_error_exits_witness :
  fresh_in world_offline default_cache_file = false
  ∧ fst (@GetOffers runtime_ABC URL (emit (EvStat default_cache_file) world_offline))
    = Err (HttpError URL)
  ∧ fst (@GetEC2Price runtime_ABC "m4.4xlarge" "Shared" "Linux" "OnDemand" world_offline)
    = Exit "Could not get offers: %s" (HttpError URL).
Proof.
  assert (H1 : fresh_in world_offline default_cache_file = false)
    by (vm_compute; reflexivity).
  assert (H2 : @GetOffers runtime_ABC URL (emit (EvStat default_cache_file) world_offline)
               = (Err (HttpError URL),
                  snd (@GetOffers runtime_ABC URL
                         (emit (EvStat default_cache_file) world_offline))))
    by (vm_compute; reflexivity).
  split; [exact H1|]. split; [rewrite H2; reflexivity|].
  destruct (@GetEC2Price_GetOffers_error_exits runtime_ABC
              "m4.4xlarge" "Shared" "Linux" "OnDemand" world_offline _ _ H1 H2) as [Hcall _].
  rewrite Hcall. reflexivity.
Defined.

Lemma GetOffers_cache_hit_rewrites_witness :
  files world_cached_offers !! offers_file
  = Some {| Contents := sample_doc; ModTime := 0 |}
  ∧ time.Sub (clock world_cached_offers) 0 < MAX_CACHE_AGE * time.Second
  ∧ ∃ w', snd (@GetOffers runtime_ABC URL world_cached_offers) = w'
      ∧ In (EvWriteFile offers_file sample_doc) (trace w')
      ∧ files w' !! offers_file = Some {| Contents := sample_doc; ModTime := 1000 |}.
Proof.
  assert (H1 : files world_cached_offers !! offers_file
               = Some {| Contents := sample_doc; ModTime := 0 |})
    by (vm_compute; reflexivity).
  assert (H2 : time.Sub (clock world_cached_offers) 0 < MAX_CACHE_AGE * time.Second)
    by (vm_compute; reflexivity).
  split; [exact H1|]. split; [exact H2|].
  destruct (@GetOffers_cache_hit_rewrites runtime_ABC URL world_cached_offers _
              H1 H2 eq_refl eq_refl) as (w' & Hcall & Htrace & Hfile).
  exists w'. split; [rewrite Hcall; reflexivity|].
  split; [|exact Hfile].
  rewrite Htrace. simpl. auto.
Defined.

Lemma GetOffers_corrupt_bytes_cached_witness :
  fresh_in world_online offers_file = false
  ∧ fst (@GetOffers runtime_strict URL world_online) = Err SyntaxError
  ∧ files (snd (@GetOffers runtime_strict URL world_online)) !! offers_file
    = Some {| Contents := sample_doc; ModTime := 1000 |}.
Proof.
  assert (H1 : fresh_in world_online offers_file = false) by (vm_compute; reflexivity).
  assert (H2 : @GetOffers runtime_strict URL world_online
               = (Err SyntaxError, snd (@GetOffers runtime_strict URL world_online)))
    by (vm_compute; reflexivity).
  split; [exact H1|]. split; [rewrite H2; reflexivity|].
  destruct (@GetOffers_corrupt_bytes_cached runtime_strict URL world_online _ H1 H2)
    as (body & Hnet & _ & Hfile & _).
  injection Hnet as <-. exact Hfile.
Defined.

Lemma GetSKU_empty_SKU_sentinel_witness :
  Products offer_unnamed_priced !! "A" = Some (product_of "")
  ∧ matches "m4.4xlarge" "Shared" "Linux" (product_of "") = true
  ∧ @GetSKU runtime_unnamed_priced offer_unnamed_priced "m4.4xlarge" "Shared" "Linux" = Ok "".
Proof.
  assert (H1 : Products offer_unnamed_priced !! "A" = Some (product_of "")) by reflexivity.
  assert (H2 : matches "m4.4xlarge" "Shared" "Linux" (product_of "") = true) by reflexivity.
  split; [exact H1|]. split; [exact H2|].
  destruct (@GetSKU_empty_SKU_sentinel runtime_unnamed_priced
              "m4.4xlarge" "Shared" "Linux" "OnDemand" offer_unnamed_priced) as (Hone & _).
  apply (Hone "A" (product_of "") H1 H2 eq_refl).
  intros k p Hk _.
  change (Products offer_unnamed_priced)
    with ({[ "A" := product_of "" ]} : gmap string Product) in Hk.
  apply lookup_singleton_Some in Hk as [<- _]. reflexivity.
Defined.

(** C10 (counterexample).  One product matches, its SKU field is empty,
    [GetSKU] returns the empty SKU, and the call returns the price 0.5
    that the offer file lists under the empty SKU: it does not fail. *)
Lemma empty_SKU_price_returned :
  Products offer_unnamed_priced = {[ "A" := product_of "" ]}
  ∧ matches "m4.4xlarge" "Shared" "Linux" (product_of "") = true
  ∧ SKU (product_of "") = ""
  ∧ @GetSKU runtime_unnamed_priced offer_unnamed_priced "m4.4xlarge" "Shared" "Linux"
    = Ok ""
  ∧ fst (@GetOffers runtime_unnamed_priced URL
           (emit (EvStat default_cache_file) world_online))
    = Ret offer_unnamed_priced
  ∧ fst (@GetEC2Price runtime_unnamed_priced "m4.4xlarge" "Shared" "Linux" "OnDemand"
           world_online)
    = Ret (Float64frombits 0x3fe0000000000000)
  ∧ fst (@GetEC2Price runtime_unnamed_priced "m4.4xlarge" "Shared" "Linux" "OnDemand"
           world_online)
    ≠ Err PriceNotFound.
Proof.
  assert (Hcall : fst (@GetEC2Price runtime_unnamed_priced
                         "m4.4xlarge" "Shared" "Linux" "OnDemand" world_online)
                  = Ret (Float64frombits 0x3fe0000000000000))
    by (vm_compute; reflexivity).
  split; [reflexivity|]. split; [reflexivity|]. split; [reflexivity|].
  split; [vm_compute; reflexivity|]. split; [vm_compute; reflexivity|].
  split; [exact Hcall|]. rewrite Hcall. discriminate.
Qed.

(* ===================================================================== *)
(*  Further properties of the code                                       *)
(* ===================================================================== *)

(* --------------------------------------------------------------------- *)
(* GetSKU                                                                *)
(* --------------------------------------------------------------------- *)

Lemma matches_location (instance_type tenancy os : string) (p : Product) :
  matches instance_type tenancy os p = true →
  Attributes p !! "location" = Some AWS_LOCATION.
Proof.
  unfold matches. rewrite !andb_true_iff, !bool_decide_eq_true.
  intros [[[_ Hloc] _] _]. unfold index in Hloc.
  destruct (Attributes p !! "location") as [l|]; simpl in Hloc; [congruence|discriminate].
Qed.

Lemma loop_Ok_inv (instance_type tenancy os : string)
    (l : list (string * Product)) (sku0 sku : string) :
  GetSKU_loop instance_type tenancy os l sku0 = Ok sku →
  sku = sku0
  ∨ ∃ k p, (k, p) ∈ l ∧ matches instance_type tenancy os p = true ∧ SKU p = sku.
Proof.
  revert sku0. induction l as [|[k p] l IH]; cbn [GetSKU_loop]; intros sku0.
  - intros [= ->]. left. reflexivity.
  - destruct (matches instance_type tenancy os p) eqn:Hp.
    + case_bool_decide; [discriminate|]. intros Hrest.
      destruct (IH _ Hrest) as [->|(k' & p' & Hin & Hhit & Hsku)].
      * right. exists k, p. split; [left|]. auto.
      * right. exists k', p'. split; [right; exact Hin|]. auto.
    + intros Hrest.
      destruct (IH _ Hrest) as [->|(k' & p' & Hin & Hhit & Hsku)]; [left; reflexivity|].
      right. exists k', p'. split; [right; exact Hin|]. auto.
Qed.

Section MoreGetSKU.
Context `{RT : Runtime}.
Variables (o : Offer) (instance_type tenancy os : string).

(** X1.  When every matching product carries a SKU, [GetSKU] follows the
    multiplicity policy in every iteration order: no match gives the
    empty SKU, a single match gives its (non-empty) SKU, and two
    different matching products give the error. *)
Theorem GetSKU_policy_named :
  (∀ k p, Products o !! k = Some p →
          matches instance_type tenancy os p = true → SKU p ≠ "") →
  ((∀ k p, Products o !! k = Some p → matches instance_type tenancy os p = false) →
   GetSKU o instance_type tenancy os = Ok "")
  ∧ (∀ k p, Products o !! k = Some p → matches instance_type tenancy os p = true →
       (∀ k' p', Products o !! k' = Some p' →
                 matches instance_type tenancy os p' = true → k' = k) →
       GetSKU o instance_type tenancy os = Ok (SKU p) ∧ SKU p ≠ "")
  ∧ (∀ k1 p1 k2 p2, k1 ≠ k2 →
       Products o !! k1 = Some p1 → matches instance_type tenancy os p1 = true →
       Products o !! k2 = Some p2 → matches instance_type tenancy os p2 = true →
       GetSKU o instance_type tenancy os = Error AmbiguousMatch).
Proof.
  intros Hnamed. split; [apply GetSKU_none|]. split.
  - intros k p Hk Hp Honly. split; [|exact (Hnamed k p Hk Hp)].
    apply (GetSKU_one _ _ _ _ k p); assumption.
  - intros k1 p1 k2 p2 Hne H1 Hh1 H2 Hh2.
    apply (GetSKU_two_named _ _ _ _ k1 k2 p1 p2); eauto.
Qed.

(** X2.  A non-empty SKU returned by [GetSKU] is the SKU field of a
    product of the catalog that matches the query, and that product is
    located in [AWS_LOCATION]: nothing is returned for another region. *)
Theorem GetSKU_sound (sku : string) :
  GetSKU o instance_type tenancy os = Ok sku → sku ≠ "" →
  ∃ k p, Products o !! k = Some p
         ∧ matches instance_type tenancy os p = true
         ∧ SKU p = sku
         ∧ Attributes p !! "location" = Some AWS_LOCATION.
Proof.
  intros Hok Hne. apply loop_Ok_inv in Hok as [->|(k & p & Hin & Hhit & Hsku)]; [done|].
  exists k, p. split; [apply elem_of_range_map, Hin|].
  split; [exact Hhit|]. split; [exact Hsku|]. apply (matches_location _ _ _ _ Hhit).
Qed.

(** X4.  A catalog without a product whose [location] attribute is
    [AWS_LOCATION] (absent attributes included) gives the empty SKU and
    no error for every query. *)
Theorem GetSKU_other_regions :
  (∀ k p, Products o !! k = Some p → Attributes p !! "location" ≠ Some AWS_LOCATION) →
  GetSKU o instance_type tenancy os = Ok "".
Proof.
  intros Hfar. apply GetSKU_none. intros k p Hk.
  destruct (matches instance_type tenancy os p) eqn:Hp; [|reflexivity].
  exfalso. apply (Hfar k p Hk), (matches_location _ _ _ _ Hp).
Qed.

End MoreGetSKU.


(* --------------------------------------------------------------------- *)
(* GetPrice                                                              *)
(* --------------------------------------------------------------------- *)

(** X5.  When exactly one (currency, value) pair is listed under
    [Terms[term][sku]], [GetPrice] returns that pair whatever the
    iteration order. *)
Theorem GetPrice_single_listing `{RT : Runtime} (o : Offer)
    (sku term currency value : string) :
  price_listed o sku term currency value →
  (∀ c v, price_listed o sku term c v → c = currency ∧ v = value) →
  GetPrice o sku term = Ok {| Currency := currency; Value := value |}.
Proof.
  intros Hlisted Honly.
  destruct (GetPrice o sku term) as [[c v]|e] eqn:Hprice.
  - apply GetPrice_Ok in Hprice. simpl in Hprice.
    destruct (Honly c v Hprice) as [-> ->]. reflexivity.
  - exfalso. assert (e = PriceNotFound) as ->.
    { unfold GetPrice in Hprice. destruct (GetPrice_terms _); congruence. }
    apply GetPrice_PriceNotFound in Hprice. apply Hprice. eauto.
Qed.

(** With two currencies the pair returned depends on the iteration
    order. *)
Example GetPrice_order_dependent :
  @GetPrice (sample_runtime false sample_doc offer_ABC) offer_two_currencies "ABC" "OnDemand"
  ≠ @GetPrice (sample_runtime true sample_doc offer_ABC) offer_two_currencies "ABC" "OnDemand".
Proof. vm_compute. discriminate. Qed.

(* --------------------------------------------------------------------- *)
(* The cache file name                                                   *)
(* --------------------------------------------------------------------- *)

Lemma hexdigit_is_hex (v : Z) : is_hex (Bytes.hexdigit v).
Proof.
  unfold is_hex, Bytes.hexdigit.
  destruct (Nat.lt_ge_cases (Z.to_nat v) (length Bytes.hextable)) as [Hlt|Hge].
  - apply nth_In, Hlt.
  - rewrite nth_overflow by exact Hge. left. reflexivity.
Qed.

Lemma EncodeToString_is_hex (src : list byte) :
  Forall is_hex (list_ascii_of_string (Bytes.EncodeToString src)).
Proof.
  induction src as [|b src IH]; simpl; [constructor|].
  constructor; [apply hexdigit_is_hex|]. constructor; [apply hexdigit_is_hex|exact IH].
Qed.

(** X6.  Whatever the four query strings contain, the cache file is
    [CACHE_DIR], a slash and 32 characters that are all lower-case
    hexadecimal digits (so no slash and no dot), and it is never the file
    that caches the offer file. *)
Theorem cache_file_shape (instance_type tenancy operating_system term : string) :
  ∃ digest,
    cache_file_of instance_type tenancy operating_system term
    = CACHE_DIR +:+ "/" +:+ digest
    ∧ String.length digest = 32%nat
    ∧ Forall is_hex (list_ascii_of_string digest)
    ∧ ¬ In "/"%char (list_ascii_of_string digest)
    ∧ cache_file_of instance_type tenancy operating_system term ≠ offers_file.
Proof.
  exists (GetMD5Hash (instance_type +:+ tenancy +:+ operating_system +:+ term)).
  split; [reflexivity|]. split; [apply GetMD5Hash_length|].
  assert (Hhex : Forall is_hex (list_ascii_of_string
                   (GetMD5Hash (instance_type +:+ tenancy +:+ operating_system +:+ term))))
    by apply EncodeToString_is_hex.
  split; [exact Hhex|]. split; [|apply cache_file_not_offers].
  intros Hslash. apply list_elem_of_In in Hslash.
  rewrite Forall_forall in Hhex. specialize (Hhex _ Hslash).
  unfold is_hex, Bytes.hextable in Hhex. simpl in Hhex.
  repeat (destruct Hhex as [Hhex|Hhex]; [discriminate|]). exact Hhex.
Qed.

(* --------------------------------------------------------------------- *)
(* binary.Read                                                           *)
(* --------------------------------------------------------------------- *)









(* --------------------------------------------------------------------- *)
(* GetOffers                                                             *)
(* --------------------------------------------------------------------- *)

Section MoreGetOffers.
Context `{RT : Runtime}.

(** X9.  [GetOffers] changes nothing but the cached offer file: every
    other file, the clock, the faults and the network are as before, and
    the trace only grows. *)
Theorem GetOffers_only_offers_file (url : string) (w w' : World) (r : outcome Offer) :
  GetOffers url w = (r, w') →
  (∀ n, n ≠ offers_file → files w' !! n = files w !! n)
  ∧ clock w' = clock w ∧ read_fault w' = read_fault w
  ∧ write_fault w' = write_fault w ∧ network w' = network w
  ∧ ∃ evs, trace w' = trace w ++ evs.
Proof.
  intros Hcall. apply GetOffers_frame in Hcall as (Hc & Hr & Hw & Hn & Hf & He).
  repeat split; assumption.
Qed.

(** X10.  When the cached offer file is absent or stale and the fetch
    fails, in [http.Get] or while reading the body, [GetOffers] returns
    the transport error, writes nothing and decodes nothing. *)
Theorem GetOffers_fetch_failure (url : string) (w : World) :
  fresh_in w offers_file = false →
  network w url = GetFails ∨ network w url = BodyFails →
  ∃ w', GetOffers url w = (Err (HttpError url), w')
        ∧ files w' = files w
        ∧ trace w'
          = trace w ++ [EvStat offers_file;
                        EvLog ("Fetching content from AWS API: " +:+ url);
                        EvHttpGet url].
Proof.
  intros Hstale Hnet. rewrite (GetOffers_stale url w Hstale). cbv zeta.
  destruct Hnet as [-> | ->]; eexists; (split; [reflexivity|]); simpl;
    rewrite <- !app_assoc; auto.
Qed.

(** X11.  A successful fetch is cached: [GetOffers] returns the decoded
    offer, and any later [GetOffers], for whatever URL, that comes less
    than 86400 s afterwards returns the same offer from the stored bytes
    without a fetch (or the read error when the file cannot be read). *)
Theorem GetOffers_fetch_then_hit (url : string) (w : World)
    (body : list byte) (offer : Offer) :
  fresh_in w offers_file = false →
  network w url = BodyOk body → json_Unmarshal body = Some offer →
  write_fault w offers_file = false →
  ∃ w', GetOffers url w = (Ret offer, w')
    ∧ files w' !! offers_file = Some {| Contents := body; ModTime := clock w |}
    ∧ ∀ (d : Z) (url' : string),
        d < MAX_CACHE_AGE * time.Second →
        ∃ w2, GetOffers url' (elapse d w')
              = (if read_fault w offers_file then Err (PathError "open" offers_file)
                 else Ret offer, w2)
          ∧ ∀ u, EvHttpGet u ∈ trace w2 → EvHttpGet u ∈ trace w'.
Proof.
  intros Hstale Hnet Hjson Hwf. rewrite (GetOffers_stale url w Hstale). cbv zeta.
  rewrite Hnet, Hwf, Hjson. eexists. split; [reflexivity|].
  split; [simpl; apply lookup_insert_eq|].
  intros d url' Hd. set (w1 := emit EvUnmarshal _).
  assert (Hf1 : files (elapse d w1) !! offers_file
                = Some {| Contents := body; ModTime := clock w |})
    by (simpl; apply lookup_insert_eq).
  assert (Hfresh1 : fresh_in (elapse d w1) offers_file = true).
  { apply (fresh_in_Some _ _ _ Hf1). simpl. apply Sub_within, Hd. }
  rewrite (GetOffers_fresh url' _ _ Hf1 Hfresh1). cbv zeta.
  change (read_fault (elapse d w1)) with (read_fault w).
  change (write_fault (elapse d w1)) with (write_fault w).
  destruct (read_fault w offers_file).
  - eexists. split; [reflexivity|]. intros u. simpl.
    rewrite !elem_of_app, !list_elem_of_singleton. intuition congruence.
  - rewrite Hwf. simpl Contents. rewrite Hjson.
    eexists. split; [reflexivity|]. intros u. simpl.
    rewrite !elem_of_app, !list_elem_of_singleton. intuition congruence.
Qed.

(** X12.  While the cached offer file is fresh the URL plays no part:
    [GetOffers] gives the same result and the same world for any two
    URLs. *)
Theorem GetOffers_hit_ignores_url (url1 url2 : string) (w : World) :
  fresh_in w offers_file = true →
  GetOffers url1 w = GetOffers url2 w.
Proof.
  intros Hfresh.
  assert (∃ f, files w !! offers_file = Some f) as [f Hf].
  { unfold fresh_in in Hfresh. destruct (files w !! offers_file); [eauto|discriminate]. }
  rewrite (GetOffers_fresh url1 w f Hf Hfresh), (GetOffers_fresh url2 w f Hf Hfresh).
  reflexivity.
Qed.

End MoreGetOffers.

Lemma no_fetch_in (w : World) (evs : list Event) :
  (∀ u, EvHttpGet u ∉ evs) →
  ∀ w', trace w' = trace w ++ evs → ∀ u, EvHttpGet u ∈ trace w' → EvHttpGet u ∈ trace w.
Proof.
  intros Hno w' -> u Hin. apply elem_of_app in Hin as [Hin|Hin]; [exact Hin|].
  exfalso. exact (Hno u Hin).
Qed.

(** X13.  Because every call rewrites the offer file, the cached bytes
    never expire while calls follow one another less than 86400 s apart:
    after any such series of calls the file still holds the same bytes,
    stamped with the time of the last call, and no call has fetched,
    however long the series lasts in total. *)
Theorem GetOffers_never_refetches `{RT : Runtime} (delays : list Z) (w : World)
    (body : list byte) :
  files w !! offers_file = Some {| Contents := body; ModTime := clock w |} →
  read_fault w offers_file = false → write_fault w offers_file = false →
  Forall (λ d, d < MAX_CACHE_AGE * time.Second) delays →
  files (GetOffers_after delays w) !! offers_file
  = Some {| Contents := body; ModTime := clock (GetOffers_after delays w) |}
  ∧ clock (GetOffers_after delays w) = clock w + foldr Z.add 0 delays
  ∧ ∀ u, EvHttpGet u ∈ trace (GetOffers_after delays w) → EvHttpGet u ∈ trace w.
Proof.
  revert w. induction delays as [|d delays IH]; intros w Hf Hr Hw Hall.
  - simpl. split; [exact Hf|]. split; [lia|auto].
  - apply Forall_cons in Hall as [Hd Hall]. cbn [GetOffers_after foldr].
    assert (Hf1 : files (elapse d w) !! offers_file
                  = Some {| Contents := body; ModTime := clock w |}) by exact Hf.
    assert (Hfresh1 : fresh_in (elapse d w) offers_file = true).
    { apply (fresh_in_Some _ _ _ Hf1). simpl. apply Sub_within, Hd. }
    rewrite (GetOffers_fresh URL _ _ Hf1 Hfresh1). cbv zeta.
    change (read_fault (elapse d w)) with (read_fault w).
    change (write_fault (elapse d w)) with (write_fault w).
    rewrite Hr, Hw. cbn [snd Contents].
    set (w2 := emit EvUnmarshal _).
    destruct (IH w2) as (Hfile & Hclock & Htrace); try assumption.
    { simpl. apply lookup_insert_eq. }
    split; [exact Hfile|]. split; [rewrite Hclock; simpl; lia|].
    intros u Hin. specialize (Htrace u Hin). simpl in Htrace.
    rewrite !elem_of_app, !list_elem_of_singleton in Htrace.
    intuition congruence.
Qed.

(* --------------------------------------------------------------------- *)
(* GetEC2Price                                                           *)
(* --------------------------------------------------------------------- *)

Lemma Sub_beyond (t d : Z) :
  MAX_CACHE_AGE * time.Second ≤ d → MAX_CACHE_AGE * time.Second ≤ time.Sub (t + d) t.
Proof.
  unfold time.Sub, time.maxDuration, time.minDuration, MAX_CACHE_AGE, time.Second.
  intros Hd. replace (t + d - t) with d by lia.
  repeat match goal with
         | |- context [Z.ltb ?a ?b] => destruct (Z.ltb_spec a b)
         end; lia.
Qed.

Section MoreGetEC2Price.
Context `{RT : Runtime}.
Variables instance_type tenancy operating_system term : string.

Local Abbreviation name := (cache_file_of instance_type tenancy operating_system term).
Local Abbreviation get_price := (GetEC2Price instance_type tenancy operating_system term).

(** X14.  [GetEC2Price] changes at most two files, the query's cache file
    and the cached offer file; the clock, the faults and the network are
    as before. *)
Theorem GetEC2Price_only_two_files (w w' : World) (r : outcome float64) :
  get_price w = (r, w') →
  (∀ n, n ≠ name → n ≠ offers_file → files w' !! n = files w !! n)
  ∧ clock w' = clock w ∧ read_fault w' = read_fault w
  ∧ write_fault w' = write_fault w ∧ network w' = network w.
Proof.
  destruct (fresh_in w name) eqn:Hfresh.
  - assert (∃ f, files w !! name = Some f) as [f Hf].
    { unfold fresh_in in Hfresh. destruct (files w !! name); [eauto|discriminate]. }
    rewrite (GetEC2Price_hit _ _ _ _ w f Hf Hfresh).
    destruct (read_fault w name); [intros [= <- <-]; simpl; auto|].
    unfold lift. destruct (binaryIO.Read _); intros [= <- <-]; simpl; auto.
  - rewrite (GetEC2Price_miss _ _ _ _ w Hfresh).
    destruct (GetOffers URL (emit (EvStat name) w)) as [[offer|e|fmt e] w1] eqn:Hoffers;
      apply GetOffers_frame in Hoffers as (Hc & Hr & Hw & Hn & Hf & _);
      simpl in Hc, Hr, Hw, Hn, Hf.
    + destruct (GetSKU offer _ _ _) as [sku|e];
        [|intros [= <- <-]; simpl; repeat split; auto].
      destruct (GetPrice offer sku term) as [price|e];
        [|intros [= <- <-]; simpl; repeat split; auto].
      cbv zeta.
      destruct (strconv_ParseFloat (Value price)) as [price_f|];
        [|intros [= <- <-]; simpl; repeat split; auto].
      destruct (write_fault w1 name); [failed_write_cases|];
        intros [= <- <-]; simpl; repeat split; auto;
        intros n Hn1 Hn2; rewrite lookup_insert_ne by congruence; auto.
    + intros [= <- <-]; simpl; repeat split; auto.
    + intros [= <- <-]; simpl; repeat split; auto.
Qed.

(** X15.  A price returned on the cache-miss branch is the parse of a
    price string listed in the offer under the SKU that [GetSKU] found,
    and it has been stored, as eight bytes stamped with the current
    time, under the query's cache key. *)
Theorem GetEC2Price_miss_success (w w' : World) (v : float64) :
  fresh_in w name = false → get_price w = (Ret v, w') →
  ∃ offer sku price w1,
    GetOffers URL (emit (EvStat name) w) = (Ret offer, w1)
    ∧ GetSKU offer instance_type tenancy operating_system = Ok sku
    ∧ GetPrice offer sku term = Ok price
    ∧ price_listed offer sku term (Currency price) (Value price)
    ∧ strconv_ParseFloat (Value price) = Some v
    ∧ files w' !! name
      = Some {| Contents := binary.PutUint64 (Float64bits v); ModTime := clock w |}.
Proof.
  intros Hstale. rewrite (GetEC2Price_miss _ _ _ _ w Hstale).
  destruct (GetOffers URL (emit (EvStat name) w)) as [[offer|e|fmt e] w1] eqn:Hoffers;
    [|discriminate..].
  apply GetOffers_frame in Hoffers as (Hc & _). simpl in Hc.
  destruct (GetSKU offer _ _ _) as [sku|e] eqn:Hsku; [|discriminate].
  destruct (GetPrice offer sku term) as [price|e] eqn:Hprice; [|discriminate].
  cbv zeta.
  destruct (strconv_ParseFloat (Value price)) as [price_f|] eqn:Hparse; [|discriminate].
  destruct (write_fault w1 name); [failed_write_cases; discriminate|].
  intros [= <- <-]. exists offer, sku, price, w1.
  split; [reflexivity|]. split; [exact Hsku|]. split; [exact Hprice|].
  split; [apply GetPrice_Ok, Hprice|]. split; [exact Hparse|].
  simpl. rewrite lookup_insert_eq, Hc. reflexivity.
Qed.

(** X16.  A price stored by a call expires: 86400 s or more after that
    call the blob is no longer fresh, and the next call takes the
    cache-miss branch again, starting with [GetOffers]. *)
Theorem GetEC2Price_expires (w w' : World) (v : float64) (d : Z) :
  fresh_in w name = false → get_price w = (Ret v, w') →
  MAX_CACHE_AGE * time.Second ≤ d →
  fresh_in (elapse d w') name = false
  ∧ ∃ r2 w2 evs, get_price (elapse d w') = (r2, w2)
      ∧ trace w2 = trace w' ++ EvStat name :: EvStat offers_file :: evs.
Proof.
  intros Hstale Hcall Hd.
  assert (Hfile : ∃ c, files w' !! name = Some {| Contents := c; ModTime := clock w |}
                       ∧ clock w' = clock w).
  { revert Hcall. rewrite (GetEC2Price_miss _ _ _ _ w Hstale).
    destruct (GetOffers URL (emit (EvStat name) w)) as [[offer|e|fmt e] w1] eqn:Hoffers;
      [|discriminate..].
    apply GetOffers_frame in Hoffers as (Hc & _). simpl in Hc.
    destruct (GetSKU offer _ _ _) as [sku|e]; [|discriminate].
    destruct (GetPrice offer sku term) as [price|e]; [|discriminate].
    cbv zeta. destruct (strconv_ParseFloat (Value price)) as [price_f|]; [|discriminate].
    destruct (write_fault w1 name); [failed_write_cases; discriminate|].
    intros [= <- <-]. eexists. simpl. rewrite lookup_insert_eq, Hc. auto. }
  destruct Hfile as (c & Hfile & Hclock).
  assert (Hstale' : fresh_in (elapse d w') name = false).
  { unfold fresh_in. simpl. rewrite Hfile, Hclock. simpl.
    unfold time.Seconds_lt. apply Z.ltb_ge, Sub_beyond, Hd. }
  split; [exact Hstale'|].
  destruct (get_price (elapse d w')) as [r2 w2] eqn:Hnext.
  destruct (GetEC2Price_miss_trace _ _ _ _ _ _ _ Hstale' Hnext) as [evs Hevs].
  exists r2, w2, evs. split; [reflexivity|exact Hevs].
Qed.

(** X17.  A fresh cache blob shorter than eight bytes makes the call
    fail with [io.EOF] (empty blob) or [io.ErrUnexpectedEOF]: the call
    does not fall back on the offer file and leaves the blob as it is. *)
Theorem GetEC2Price_truncated_blob (w : World) (f : File) :
  files w !! name = Some f →
  time.Sub (clock w) (ModTime f) < MAX_CACHE_AGE * time.Second →
  read_fault w name = false → (length (Contents f) < 8)%nat →
  ∃ w', get_price w
        = (Err (if decide (length (Contents f) = 0%nat) then EOF else ErrUnexpectedEOF), w')
    ∧ files w' = files w
    ∧ trace w'
      = trace w ++ [EvStat name;
                    EvLog ("Reading content from cache file: " +:+ name);
                    EvReadFile name].
Proof.
  intros Hf Hage Hr Hshort.
  assert (Hfresh : fresh_in w name = true) by (apply (fresh_in_Some w name f Hf), Hage).
  rewrite (GetEC2Price_hit _ _ _ _ w f Hf Hfresh), Hr.
  assert (Hread : binaryIO.Read (Contents f)
                  = Error (if decide (length (Contents f) = 0%nat)
                           then EOF else ErrUnexpectedEOF)).
  { unfold binaryIO.Read.
    destruct (decide (length (Contents f) = 0%nat)); [reflexivity|].
    rewrite decide_True by exact Hshort. reflexivity. }
  rewrite Hread. eexists. split; [reflexivity|]. split; [reflexivity|].
  simpl. rewrite <- !app_assoc. reflexivity.
Qed.

(** X18.  When no product matches and the offer lists nothing under the
    empty SKU, the call fails with the not-found price error after the
    price lookup; no float is returned and nothing is parsed or stored. *)
Theorem GetEC2Price_no_match (w w1 : World) (offer : Offer) :
  fresh_in w name = false →
  GetOffers URL (emit (EvStat name) w) = (Ret offer, w1) →
  (∀ k p, Products offer !! k = Some p →
          matches instance_type tenancy operating_system p = false) →
  (∀ currency value, ¬ price_listed offer "" term currency value) →
  get_price w = (Err PriceNotFound, emit EvGetPrice (emit EvGetSKU w1)).
Proof.
  intros Hstale Hoffers Hno Hnone.
  rewrite (GetEC2Price_miss _ _ _ _ w Hstale), Hoffers.
  rewrite (GetSKU_none _ _ _ _ Hno).
  assert (Hprice : GetPrice offer "" term = Error PriceNotFound).
  { apply GetPrice_PriceNotFound. intros (c & v & Hl). exact (Hnone c v Hl). }
  rewrite Hprice. reflexivity.
Qed.

(** X19.  After a successful [GetOffers] the call stops at the first
    stage that fails and returns that stage's error unchanged: the error
    of [GetSKU] before any price lookup, the error of [GetPrice] before
    any parse, the [NumError] of a price string that does not parse, and
    the error of the final write.  A final write that cannot open the
    file leaves the query's cache entry as it was; one that fails later
    leaves a truncated entry, the bytes written so far stamped with the
    current time. *)
Theorem GetEC2Price_stage_errors (w w1 : World) (offer : Offer) :
  fresh_in w name = false →
  GetOffers URL (emit (EvStat name) w) = (Ret offer, w1) →
  (∀ e, GetSKU offer instance_type tenancy operating_system = Error e →
        get_price w = (Err e, emit EvGetSKU w1))
  ∧ (∀ sku e,
       GetSKU offer instance_type tenancy operating_system = Ok sku →
       GetPrice offer sku term = Error e →
       get_price w = (Err e, emit EvGetPrice (emit EvGetSKU w1)))
  ∧ (∀ sku price,
       GetSKU offer instance_type tenancy operating_system = Ok sku →
       GetPrice offer sku term = Ok price →
       strconv_ParseFloat (Value price) = None →
       get_price w
       = (Err (NumError (Value price)),
          emit EvParseFloat (emit EvGetPrice (emit EvGetSKU w1))))
  ∧ (∀ sku price v,
       GetSKU offer instance_type tenancy operating_system = Ok sku →
       GetPrice offer sku term = Ok price →
       strconv_ParseFloat (Value price) = Some v →
       write_fault w name = true →
       ∃ w',
         get_price w
         = (match write_failure w name with
            | OpenFails => Err (PathError "open" name)
            | WriteFails _ => Err (PathError "write" name)
            end, w')
         ∧ files w' !! name
           = match write_failure w name with
             | OpenFails => files w !! name
             | WriteFails written =>
                 Some {| Contents := take written (binary.PutUint64 (Float64bits v));
                         ModTime := clock w |}
             end).
Proof.
  intros Hstale Hoffers. rewrite (GetEC2Price_miss _ _ _ _ w Hstale), Hoffers.
  split; [intros e ->; reflexivity|].
  split; [intros sku e -> ->; reflexivity|].
  split; [intros sku price -> -> ->; reflexivity|].
  intros sku price v -> -> -> Hwf.
  pose proof (GetOffers_keeps_write_failure _ _ _ _ Hoffers) as Hstage.
  apply GetOffers_frame in Hoffers as (Hc & _ & Hw & _ & Hf & _).
  simpl in Hstage, Hc, Hw, Hf.
  cbv zeta. rewrite Hw, Hwf.
  unfold ioutil.failed_write. cbn [write_failure emit store]. rewrite Hstage.
  destruct (write_failure w name) as [|written].
  - eexists. split; [reflexivity|]. simpl. apply Hf, cache_file_not_offers.
  - eexists. split; [reflexivity|]. simpl. rewrite lookup_insert_eq, Hc. reflexivity.
Qed.

(** X7.  A final cache write that fails after it has opened the file is
    kept by the cache.  The call returns the write error and leaves,
    under the query's cache key, the first bytes of the price's encoding
    stamped with the current time.  For the 86400 s that follow, the next
    call for the query reads that entry and does not go back to the
    offers: with nothing written it fails with [io.EOF], with one to
    seven bytes written with [io.ErrUnexpectedEOF], and with all eight
    written it returns the price the failed call had computed. *)
Theorem GetEC2Price_torn_write_cached (w w' : World) (d : Z) :
  fresh_in w name = false →
  get_price w = (Err (PathError "write" name), w') →
  read_fault w name = false →
  0 ≤ d < MAX_CACHE_AGE * time.Second →
  ∃ written v,
    write_failure w name = WriteFails written
    ∧ files w' !! name
      = Some {| Contents := take written (binary.PutUint64 (Float64bits v));
                ModTime := clock w |}
    ∧ ∃ w2,
        get_price (elapse d w')
        = (if decide (written = 0%nat) then Err EOF
           else if decide (written < 8)%nat then Err ErrUnexpectedEOF
           else Ret v, w2)
        ∧ files w2 = files w'
        ∧ trace w2
          = trace w' ++ [EvStat name;
                         EvLog ("Reading content from cache file: " +:+ name);
                         EvReadFile name].
Proof.
  intros Hstale Hcall Hr Hd.
  assert (Hshape : ∃ written v,
             write_failure w name = WriteFails written
             ∧ files w' !! name
               = Some {| Contents := take written (binary.PutUint64 (Float64bits v));
                         ModTime := clock w |}
             ∧ clock w' = clock w ∧ read_fault w' = read_fault w).
  { revert Hcall. rewrite (GetEC2Price_miss _ _ _ _ w Hstale).
    destruct (GetOffers URL (emit (EvStat name) w)) as [[offer|e|fmt e] w1] eqn:Hoffers;
      [|discriminate..].
    pose proof (GetOffers_keeps_write_failure _ _ _ _ Hoffers) as Hstage.
    apply GetOffers_frame in Hoffers as (Hc & Hrf & _). simpl in Hstage, Hc, Hrf.
    destruct (GetSKU offer _ _ _) as [sku|e] eqn:Hsku;
      [|apply GetSKU_error_inv in Hsku as [-> _]; discriminate].
    destruct (GetPrice offer sku term) as [price|e] eqn:Hprice.
    2: { unfold GetPrice in Hprice. destruct (GetPrice_terms _); [discriminate|].
         injection Hprice as <-. discriminate. }
    cbv zeta. destruct (strconv_ParseFloat (Value price)) as [price_f|]; [|discriminate].
    destruct (write_fault w1 name); [|discriminate].
    unfold ioutil.failed_write. cbn [write_failure emit store]. rewrite Hstage.
    destruct (write_failure w name) as [|written]; [discriminate|].
    intros [= <-]. exists written, price_f. simpl.
    rewrite lookup_insert_eq, Hc. auto. }
  destruct Hshape as (written & v & Hstage & Hfile & Hclock & Hrf).
  exists written, v. split; [exact Hstage|]. split; [exact Hfile|].
  assert (Hfile' : files (elapse d w') !! name
                   = Some {| Contents := take written (binary.PutUint64 (Float64bits v));
                             ModTime := clock w |}) by exact Hfile.
  assert (Hfresh : fresh_in (elapse d w') name = true).
  { apply (fresh_in_Some _ _ _ Hfile'). simpl. rewrite Hclock.
    apply Sub_within. lia. }
  rewrite (GetEC2Price_hit _ _ _ _ _ _ Hfile' Hfresh).
  change (read_fault (elapse d w') name) with (read_fault w' name).
  rewrite Hrf, Hr.
  assert (Hread : binaryIO.Read (take written (binary.PutUint64 (Float64bits v)))
                  = if decide (written = 0%nat) then Error EOF
                    else if decide (written < 8)%nat then Error ErrUnexpectedEOF
                    else Ok v).
  { destruct (decide (written = 0%nat)) as [->|Hpos]; [reflexivity|].
    destruct (decide (written < 8)%nat) as [Hshort|Hall].
    - unfold binaryIO.Read. rewrite length_take. simpl length.
      rewrite decide_False by lia. rewrite decide_True by lia. reflexivity.
    - rewrite take_ge by (simpl; lia). apply Read_PutUint64. }
  cbn [Contents]. rewrite Hread.
  destruct (decide (written = 0%nat));
    [|destruct (decide (written < 8)%nat)];
    (eexists; split; [reflexivity|]; split; [reflexivity|];
     simpl; rewrite <- !app_assoc; reflexivity).
Qed.

End MoreGetEC2Price.

(** X20.  Two queries whose concatenated fields coincide share one blob:
    after a successful call for the first, a call for the second while
    that blob is fresh returns the first query's price straight from the
    store, without looking at the offer file. *)
Theorem GetEC2Price_shared_blob `{RT : Runtime} (i1 t1 o1 m1 i2 t2 o2 m2 : string)
    (w0 w1 : World) (v : float64) (d : Z) :
  i1 +:+ t1 +:+ o1 +:+ m1 = i2 +:+ t2 +:+ o2 +:+ m2 →
  GetEC2Price i1 t1 o1 m1 w0 = (Ret v, w1) →
  fresh_in (elapse d w1) (cache_file_of i1 t1 o1 m1) = true →
  read_fault w0 (cache_file_of i1 t1 o1 m1) = false →
  ∃ w2, GetEC2Price i2 t2 o2 m2 (elapse d w1) = (Ret v, w2)
    ∧ files w2 = files w1
    ∧ trace w2
      = trace w1 ++ [EvStat (cache_file_of i2 t2 o2 m2);
                     EvLog ("Reading content from cache file: "
                            +:+ cache_file_of i2 t2 o2 m2);
                     EvReadFile (cache_file_of i2 t2 o2 m2)].
Proof.
  intros Hcat Hfirst Hfresh Hr.
  assert (Hname : cache_file_of i1 t1 o1 m1 = cache_file_of i2 t2 o2 m2)
    by (unfold cache_file_of; rewrite Hcat; reflexivity).
  apply GetEC2Price_success_cached in Hfirst as (f & Hf & Hread & Hrf).
  rewrite Hname in Hf, Hfresh, Hr.
  assert (Hf' : files (elapse d w1) !! cache_file_of i2 t2 o2 m2 = Some f) by exact Hf.
  rewrite (GetEC2Price_hit _ _ _ _ _ f Hf' Hfresh).
  change (read_fault (elapse d w1)) with (read_fault w1). rewrite Hrf, Hr, Hread.
  eexists. split; [reflexivity|]. split; [reflexivity|].
  simpl. rewrite <- !app_assoc. reflexivity.
Qed.

(* --------------------------------------------------------------------- *)
(* main                                                                  *)
(* --------------------------------------------------------------------- *)

Section MoreMain.
Context `{RT : Runtime}.
Variables (h : Host) (flags : Flags).

Local Abbreviation query_file :=
  (cache_file_of (flag_String (flag_type flags) "m4.4xlarge")
                 (flag_String (flag_tenancy flags) "Shared")
                 (flag_String (flag_os flags) "Linux")
                 (flag_String (flag_term flags) "OnDemand")).
Local Abbreviation query_price :=
  (GetEC2Price (flag_String (flag_type flags) "m4.4xlarge")
               (flag_String (flag_tenancy flags) "Shared")
               (flag_String (flag_os flags) "Linux")
               (flag_String (flag_term flags) "OnDemand")).

Lemma main_price_Println (w w2 : World) (v : float64) :
  main_price (flag_String (flag_type flags) "m4.4xlarge")
             (flag_String (flag_tenancy flags) "Shared")
             (flag_String (flag_os flags) "Linux")
             (flag_String (flag_term flags) "OnDemand") w = (Println v, w2) →
  (∃ w1, query_price w = (Ret v, w1)
         ∧ w2 = emit (EvLog "Price (%f) found for %s %s %s %s") w1)
  ∧ ∃ f, files w2 !! query_file = Some f ∧ binaryIO.Read (Contents f) = Ok v.
Proof.
  unfold main_price.
  destruct (query_price w) as [[p|err|fmt err] w1] eqn:Hcall;
    intros [= <- <-]; split; [eauto|].
  apply GetEC2Price_success_cached in Hcall as (f & Hf & Hread & _).
  exists f. simpl. auto.
Qed.

Lemma main_price_failure (w w2 : World) (e : exit) :
  main_price (flag_String (flag_type flags) "m4.4xlarge")
             (flag_String (flag_tenancy flags) "Shared")
             (flag_String (flag_os flags) "Linux")
             (flag_String (flag_term flags) "OnDemand") w = (e, w2) →
  (∀ v, e ≠ Println v) →
  e ≠ Fatalf "Could not get EC2 Price: %s" (Some (PathError "write" query_file)) →
  files w2 !! query_file = files w !! query_file.
Proof.
  unfold main_price.
  destruct (query_price w) as [[p|err|fmt err] w1] eqn:Hcall;
    intros [= <- <-] Hfail Hnot_torn.
  - exfalso. exact (Hfail p eq_refl).
  - simpl. apply (GetEC2Price_failure_frame _ _ _ _ _ _ _ Hcall); [discriminate|].
    intros [= ->]. apply Hnot_torn. reflexivity.
  - apply (GetEC2Price_failure_frame _ _ _ _ _ _ _ Hcall); discriminate.
Qed.

(** X21.  [main] prints a price only when the cache directory was found
    or has just been created and [GetEC2Price], called with the flags
    (or their defaults), returned that price; the store then holds the
    price under the query's cache key. *)
Theorem main_prints_cached (w w' : World) (v : float64) (evs : list HostEvent) :
  main h flags w = (Println v, evs, w') →
  (exists_ h CACHE_DIR = (true, None)
   ∨ (exists_ h CACHE_DIR = (false, None) ∧ mkdir_all h CACHE_DIR = None))
  ∧ (∃ w1, query_price w = (Ret v, w1)
           ∧ w' = emit (EvLog "Price (%f) found for %s %s %s %s") w1)
  ∧ ∃ f, files w' !! query_file = Some f ∧ binaryIO.Read (Contents f) = Ok v.
Proof.
  unfold main. cbv zeta.
  destruct (exists_ h CACHE_DIR) as [[|] [err|]] eqn:Hex; try discriminate.
  - destruct (main_price _ _ _ _ w) as [e w2] eqn:Hmp. intros [= -> <- <-].
    split; [left; reflexivity|]. apply (main_price_Println _ _ _ Hmp).
  - destruct (mkdir_all h CACHE_DIR) as [err|] eqn:Hmk; [discriminate|].
    destruct (main_price _ _ _ _ w) as [e w2] eqn:Hmp. intros [= -> <- <-].
    split; [right; auto|]. apply (main_price_Println _ _ _ Hmp).
Qed.

(** X22.  When the cache directory cannot be examined, or is missing and
    cannot be created, [main] exits with the "Could not get offers"
    message before any call to [GetEC2Price]: the store is untouched.  In
    the second case the message is formatted with a nil error, the error
    of [os.MkdirAll] is dropped. *)
Theorem main_directory_failure (w : World) :
  (∀ err, dir_stat h CACHE_DIR = Some err → is_not_exist h err = false →
     main h flags w
     = (Fatalf "Could not get offers: %s" (Some err), [HvStat CACHE_DIR],
        emit (EvLog "Could not get offers: %s") w))
  ∧ (∀ err err', dir_stat h CACHE_DIR = Some err → is_not_exist h err = true →
       mkdir_all h CACHE_DIR = Some err' →
       main h flags w
       = (Fatalf "Could not get offers: %s" None,
          [HvStat CACHE_DIR; HvMkdirAll CACHE_DIR],
          emit (EvLog "Could not get offers: %s") w)).
Proof.
  split.
  - intros err Hstat Hother. unfold main, exists_. rewrite Hstat, Hother. reflexivity.
  - intros err err' Hstat Hmissing Hmk. unfold main, exists_.
    rewrite Hstat, Hmissing, Hmk. reflexivity.
Qed.

(** X23.  A run of [main] that does not print a price leaves the entry
    of the query's cache key as it was, unless it ends with the error of
    a final cache write that failed after opening the file. *)
Theorem main_failure_keeps_cache (w w' : World) (e : exit) (evs : list HostEvent) :
  main h flags w = (e, evs, w') → (∀ v, e ≠ Println v) →
  e ≠ Fatalf "Could not get EC2 Price: %s" (Some (PathError "write" query_file)) →
  files w' !! query_file = files w !! query_file.
Proof.
  unfold main. cbv zeta.
  destruct (exists_ h CACHE_DIR) as [[|] [err|]] eqn:Hex.
  - intros [= <- <- <-] _ _. reflexivity.
  - destruct (main_price _ _ _ _ w) as [e0 w2] eqn:Hmp. intros [= <- <- <-].
    apply (main_price_failure _ _ _ Hmp).
  - intros [= <- <- <-] _ _. reflexivity.
  - destruct (mkdir_all h CACHE_DIR) as [err|] eqn:Hmk.
    + intros [= <- <- <-] _ _. reflexivity.
    + destruct (main_price _ _ _ _ w) as [e0 w2] eqn:Hmp. intros [= <- <- <-].
      apply (main_price_failure _ _ _ Hmp).
Qed.

End MoreMain.

(* --------------------------------------------------------------------- *)
(* The further properties at sample inputs                               *)
(* --------------------------------------------------------------------- *)

Lemma offer_ABC_products (k : string) (p : Product) :
  Products offer_ABC !! k = Some p → k = "ABC" ∧ p = product_of "ABC".
Proof.
  change (Products offer_ABC) with ({[ "ABC" := product_of "ABC" ]} : gmap string Product).
  intros Hk. apply lookup_singleton_Some in Hk as [<- <-]. auto.
Qed.

Lemma offer_ABC_listed (sku term c v : string) :
  price_listed offer_ABC sku term c v →
  sku = "ABC" ∧ term = "OnDemand" ∧ c = "USD" ∧ v = "0.956".
Proof.
  intros (by_sku & terms & id & t & dim & d & H1 & H2 & H3 & H4 & H5).
  change (Terms offer_ABC)
    with ({[ "OnDemand" := {[ "ABC" := {[ "term1" := usd_term "ABC" "0.956" ]} ]} ]}
          : gmap string (gmap string (gmap string Term))) in H1.
  apply lookup_singleton_Some in H1 as [<- <-].
  apply lookup_singleton_Some in H2 as [<- <-].
  apply lookup_singleton_Some in H3 as [<- <-].
  unfold usd_term in H4. simpl in H4.
  apply lookup_singleton_Some in H4 as [<- <-]. simpl in H5.
  apply lookup_singleton_Some in H5 as [<- <-]. auto.
Qed.

Lemma GetSKU_policy_named_witness :
  (∀ k p, Products offer_ABC !! k = Some p →
          matches "m4.4xlarge" "Shared" "Linux" p = true → SKU p ≠ "")
  ∧ @GetSKU runtime_ABC offer_ABC "m4.4xlarge" "Shared" "Linux" = Ok "ABC".
Proof.
  assert (H : ∀ k p, Products offer_ABC !! k = Some p →
                     matches "m4.4xlarge" "Shared" "Linux" p = true → SKU p ≠ "").
  { intros k p Hk _. apply offer_ABC_products in Hk as [_ ->]. discriminate. }
  split; [exact H|].
  destruct (@GetSKU_policy_named runtime_ABC offer_ABC "m4.4xlarge" "Shared" "Linux" H)
    as (_ & Hone & _).
  apply (Hone "ABC" (product_of "ABC") eq_refl eq_refl).
  intros k p Hk _. apply offer_ABC_products in Hk as [-> _]. reflexivity.
Defined.

Lemma GetSKU_sound_witness :
  @GetSKU runtime_ABC offer_ABC "m4.4xlarge" "Shared" "Linux" = Ok "ABC"
  ∧ ∃ k p, Products offer_ABC !! k = Some p ∧ SKU p = "ABC"
           ∧ Attributes p !! "location" = Some AWS_LOCATION.
Proof.
  assert (H : @GetSKU runtime_ABC offer_ABC "m4.4xlarge" "Shared" "Linux" = Ok "ABC")
    by (vm_compute; reflexivity).
  split; [exact H|].
  destruct (@GetSKU_sound runtime_ABC offer_ABC "m4.4xlarge" "Shared" "Linux" "ABC" H)
    as (k & p & Hk & _ & Hsku & Hloc); [discriminate|].
  exists k, p. auto.
Defined.


Lemma GetSKU_other_regions_witness :
  (∀ k p, Products offer_no_attributes !! k = Some p →
          Attributes p !! "location" ≠ Some AWS_LOCATION)
  ∧ @GetSKU runtime_ABC offer_no_attributes "" "" "" = Ok "".
Proof.
  assert (H : ∀ k p, Products offer_no_attributes !! k = Some p →
                     Attributes p !! "location" ≠ Some AWS_LOCATION).
  { intros k p Hk.
    change (Products offer_no_attributes)
      with ({[ "X" := {| SKU := "X"; ProductFamily := ""; Attributes := ∅ |} ]}
            : gmap string Product) in Hk.
    apply lookup_singleton_Some in Hk as [_ <-]. simpl. discriminate. }
  split; [exact H|].
  exact (@GetSKU_other_regions runtime_ABC offer_no_attributes "" "" "" H).
Defined.

Lemma GetPrice_single_listing_witness :
  price_listed offer_ABC "ABC" "OnDemand" "USD" "0.956"
  ∧ @GetPrice (sample_runtime true sample_doc offer_ABC) offer_ABC "ABC" "OnDemand"
    = Ok {| Currency := "USD"; Value := "0.956" |}.
Proof.
  assert (H : price_listed offer_ABC "ABC" "OnDemand" "USD" "0.956").
  { eexists _, _, "term1", _, "dim1", _. repeat split; reflexivity. }
  split; [exact H|].
  apply (@GetPrice_single_listing (sample_runtime true sample_doc offer_ABC)
           offer_ABC "ABC" "OnDemand" "USD" "0.956" H).
  intros c v Hl. apply offer_ABC_listed in Hl as (_ & _ & -> & ->). auto.
Defined.


Lemma GetOffers_only_offers_file_witness :
  clock (snd (@GetOffers runtime_ABC URL world_online)) = clock world_online
  ∧ files (snd (@GetOffers runtime_ABC URL world_online)) !! default_cache_file
    = files world_online !! default_cache_file.
Proof.
  destruct (@GetOffers_only_offers_file runtime_ABC URL world_online _ _
              (surjective_pairing _)) as (Hfiles & Hclock & _).
  split; [exact Hclock|]. apply Hfiles.
  apply (cache_file_not_offers "m4.4xlarge" "Shared" "Linux" "OnDemand").
Defined.

Lemma GetOffers_fetch_failure_witness :
  fresh_in world_offline offers_file = false
  ∧ network world_offline URL = GetFails
  ∧ fst (@GetOffers runtime_ABC URL world_offline) = Err (HttpError URL)
  ∧ files (snd (@GetOffers runtime_ABC URL world_offline)) = files world_offline.
Proof.
  assert (H1 : fresh_in world_offline offers_file = false) by reflexivity.
  assert (H2 : network world_offline URL = GetFails) by reflexivity.
  split; [exact H1|]. split; [exact H2|].
  destruct (@GetOffers_fetch_failure runtime_ABC URL world_offline H1 (or_introl H2))
    as (w' & Hcall & Hfiles & _).
  rewrite Hcall. simpl. auto.
Defined.

Lemma GetOffers_fetch_then_hit_witness :
  fresh_in world_online offers_file = false
  ∧ network world_online URL = BodyOk sample_doc
  ∧ @json_Unmarshal runtime_ABC sample_doc = Some offer_ABC
  ∧ fst (@GetOffers runtime_ABC URL world_online) = Ret offer_ABC
  ∧ fst (@GetOffers runtime_ABC "http://localhost/"
           (elapse 1000 (snd (@GetOffers runtime_ABC URL world_online))))
    = Ret offer_ABC.
Proof.
  assert (H1 : fresh_in world_online offers_file = false) by reflexivity.
  assert (H2 : network world_online URL = BodyOk sample_doc) by reflexivity.
  assert (H3 : @json_Unmarshal runtime_ABC sample_doc = Some offer_ABC) by reflexivity.
  split; [exact H1|]. split; [exact H2|]. split; [exact H3|].
  destruct (@GetOffers_fetch_then_hit runtime_ABC URL world_online sample_doc offer_ABC
              H1 H2 H3 eq_refl) as (w' & Hcall & _ & Hlater).
  rewrite Hcall. split; [reflexivity|]. simpl snd.
  destruct (Hlater 1000 "http://localhost/") as (w2 & Hcall2 & _);
    [vm_compute; reflexivity|].
  rewrite Hcall2. reflexivity.
Defined.

Lemma GetOffers_hit_ignores_url_witness :
  fresh_in world_cached_offers offers_file = true
  ∧ @GetOffers runtime_ABC URL world_cached_offers
    = @GetOffers runtime_ABC "http://localhost/" world_cached_offers.
Proof.
  assert (H : fresh_in world_cached_offers offers_file = true) by (vm_compute; reflexivity).
  split; [exact H|].
  exact (@GetOffers_hit_ignores_url runtime_ABC URL "http://localhost/" world_cached_offers H).
Defined.

Lemma GetOffers_never_refetches_witness :
  files world_fresh_offers !! offers_file
  = Some {| Contents := sample_doc; ModTime := clock world_fresh_offers |}
  ∧ Forall (λ d, d < MAX_CACHE_AGE * time.Second) [80000 * 10 ^ 9; 80000 * 10 ^ 9]
  ∧ clock (@GetOffers_after runtime_ABC [80000 * 10 ^ 9; 80000 * 10 ^ 9] world_fresh_offers)
    = 1000 + 160000 * 10 ^ 9
  ∧ ∀ u, EvHttpGet u
         ∉ trace (@GetOffers_after runtime_ABC [80000 * 10 ^ 9; 80000 * 10 ^ 9]
                    world_fresh_offers).
Proof.
  assert (H1 : files world_fresh_offers !! offers_file
               = Some {| Contents := sample_doc; ModTime := clock world_fresh_offers |})
    by (vm_compute; reflexivity).
  assert (H2 : Forall (λ d, d < MAX_CACHE_AGE * time.Second)
                 [80000 * 10 ^ 9; 80000 * 10 ^ 9]).
  { repeat constructor; vm_compute; reflexivity. }
  split; [exact H1|]. split; [exact H2|].
  destruct (@GetOffers_never_refetches runtime_ABC _ world_fresh_offers sample_doc
              H1 eq_refl eq_refl H2) as (_ & Hclock & Htrace).
  split; [rewrite Hclock; reflexivity|].
  intros u Hin. specialize (Htrace u Hin). inversion Htrace.
Defined.

Lemma GetEC2Price_only_two_files_witness :
  files (snd (@GetEC2Price runtime_ABC "m4.4xlarge" "Shared" "Linux" "OnDemand"
                world_online)) !! dedicated_cache_file
  = files world_online !! dedicated_cache_file.
Proof.
  destruct (@GetEC2Price_only_two_files runtime_ABC "m4.4xlarge" "Shared" "Linux" "OnDemand"
              world_online _ _ (surjective_pairing _)) as (Hfiles & _).
  apply Hfiles.
  - vm_compute. discriminate.
  - apply (cache_file_not_offers "m4.4xlarge" "Dedicated" "Linux" "OnDemand").
Defined.

Lemma GetEC2Price_miss_success_witness :
  fresh_in world_online default_cache_file = false
  ∧ fst (@GetEC2Price runtime_ABC "m4.4xlarge" "Shared" "Linux" "OnDemand" world_online)
    = Ret (Float64frombits 0x3fee978d4fdf3b64)
  ∧ files (snd (@GetEC2Price runtime_ABC "m4.4xlarge" "Shared" "Linux" "OnDemand"
                  world_online)) !! default_cache_file
    = Some {| Contents := binary.PutUint64 0x3fee978d4fdf3b64; ModTime := 1000 |}.
Proof.
  assert (H1 : fresh_in world_online default_cache_file = false) by (vm_compute; reflexivity).
  assert (H2 : @GetEC2Price runtime_ABC "m4.4xlarge" "Shared" "Linux" "OnDemand" world_online
               = (Ret (Float64frombits 0x3fee978d4fdf3b64),
                  snd (@GetEC2Price runtime_ABC "m4.4xlarge" "Shared" "Linux" "OnDemand"
                         world_online)))
    by (vm_compute; reflexivity).
  split; [exact H1|]. split; [rewrite H2; reflexivity|].
  destruct (@GetEC2Price_miss_success runtime_ABC "m4.4xlarge" "Shared" "Linux" "OnDemand"
              world_online _ _ H1 H2) as (offer & sku & price & w1 & _ & _ & _ & _ & _ & Hf).
  exact Hf.
Defined.

Lemma GetEC2Price_expires_witness :
  fresh_in world_online default_cache_file = false
  ∧ fst (@GetEC2Price runtime_ABC "m4.4xlarge" "Shared" "Linux" "OnDemand" world_online)
    = Ret (Float64frombits 0x3fee978d4fdf3b64)
  ∧ MAX_CACHE_AGE * time.Second ≤ 86400 * 10 ^ 9
  ∧ fresh_in
      (elapse (86400 * 10 ^ 9)
         (snd (@GetEC2Price runtime_ABC "m4.4xlarge" "Shared" "Linux" "OnDemand"
                 world_online)))
      default_cache_file = false.
Proof.
  assert (H1 : fresh_in world_online default_cache_file = false) by (vm_compute; reflexivity).
  assert (H2 : @GetEC2Price runtime_ABC "m4.4xlarge" "Shared" "Linux" "OnDemand" world_online
               = (Ret (Float64frombits 0x3fee978d4fdf3b64),
                  snd (@GetEC2Price runtime_ABC "m4.4xlarge" "Shared" "Linux" "OnDemand"
                         world_online)))
    by (vm_compute; reflexivity).
  assert (H3 : MAX_CACHE_AGE * time.Second ≤ 86400 * 10 ^ 9) by (vm_compute; discriminate).
  split; [exact H1|]. split; [rewrite H2; reflexivity|]. split; [exact H3|].
  exact (proj1 (@GetEC2Price_expires runtime_ABC "m4.4xlarge" "Shared" "Linux" "OnDemand"
                  world_online _ _ _ H1 H2 H3)).
Defined.

Lemma GetEC2Price_truncated_blob_witness :
  files world_truncated_price !! default_cache_file
  = Some {| Contents := [x01; x02; x03]; ModTime := 0 |}
  ∧ fst (@GetEC2Price runtime_ABC "m4.4xlarge" "Shared" "Linux" "OnDemand"
           world_truncated_price)
    = Err ErrUnexpectedEOF.
Proof.
  assert (H1 : files world_truncated_price !! default_cache_file
               = Some {| Contents := [x01; x02; x03]; ModTime := 0 |})
    by (vm_compute; reflexivity).
  split; [exact H1|].
  destruct (@GetEC2Price_truncated_blob runtime_ABC "m4.4xlarge" "Shared" "Linux" "OnDemand"
              world_truncated_price _ H1) as (w' & Hcall & _).
  - vm_compute. reflexivity.
  - reflexivity.
  - simpl. lia.
  - rewrite Hcall. reflexivity.
Defined.

Lemma offer_ABC_no_dedicated (k : string) (p : Product) :
  Products offer_ABC !! k = Some p →
  matches "m4.4xlarge" "Dedicated" "Linux" p = false.
Proof. intros Hk. apply offer_ABC_products in Hk as [_ ->]. reflexivity. Qed.

Lemma world_cached_offers_GetOffers :
  @GetOffers runtime_ABC URL (emit (EvStat dedicated_cache_file) world_cached_offers)
  = (Ret offer_ABC,
     snd (@GetOffers runtime_ABC URL
            (emit (EvStat dedicated_cache_file) world_cached_offers))).
Proof. vm_compute. reflexivity. Qed.

Lemma GetEC2Price_no_match_witness :
  fresh_in world_cached_offers dedicated_cache_file = false
  ∧ (∀ k p, Products offer_ABC !! k = Some p →
            matches "m4.4xlarge" "Dedicated" "Linux" p = false)
  ∧ (∀ c v, ¬ price_listed offer_ABC "" "OnDemand" c v)
  ∧ fst (@GetEC2Price runtime_ABC "m4.4xlarge" "Dedicated" "Linux" "OnDemand"
           world_cached_offers)
    = Err PriceNotFound.
Proof.
  assert (H1 : fresh_in world_cached_offers dedicated_cache_file = false)
    by (vm_compute; reflexivity).
  assert (H3 : ∀ c v, ¬ price_listed offer_ABC "" "OnDemand" c v).
  { intros c v Hl. apply offer_ABC_listed in Hl as (Hsku & _). discriminate. }
  split; [exact H1|]. split; [exact offer_ABC_no_dedicated|]. split; [exact H3|].
  rewrite (@GetEC2Price_no_match runtime_ABC "m4.4xlarge" "Dedicated" "Linux" "OnDemand"
             world_cached_offers _ offer_ABC H1 world_cached_offers_GetOffers
             offer_ABC_no_dedicated H3).
  reflexivity.
Defined.

Lemma GetEC2Price_stage_errors_witness :
  fresh_in world_disk_full default_cache_file = false
  ∧ write_fault world_disk_full default_cache_file = true
  ∧ fst (@GetEC2Price runtime_ABC "m4.4xlarge" "Shared" "Linux" "OnDemand" world_disk_full)
    = Err (PathError "write" default_cache_file)
  ∧ files (snd (@GetEC2Price runtime_ABC "m4.4xlarge" "Shared" "Linux" "OnDemand"
                  world_disk_full)) !! default_cache_file
    = Some {| Contents := take 3 (binary.PutUint64 0x3fee978d4fdf3b64);
              ModTime := 1000 |}.
Proof.
  assert (H1 : fresh_in world_disk_full default_cache_file = false)
    by (vm_compute; reflexivity).
  assert (H2 : @GetOffers runtime_ABC URL (emit (EvStat default_cache_file) world_disk_full)
               = (Ret offer_ABC,
                  snd (@GetOffers runtime_ABC URL
                         (emit (EvStat default_cache_file) world_disk_full))))
    by (vm_compute; reflexivity).
  assert (H3 : write_fault world_disk_full default_cache_file = true)
    by (vm_compute; reflexivity).
  split; [exact H1|]. split; [exact H3|].
  destruct (@GetEC2Price_stage_errors runtime_ABC "m4.4xlarge" "Shared" "Linux" "OnDemand"
              world_disk_full _ offer_ABC H1 H2) as (_ & _ & _ & Hwrite).
  destruct (Hwrite "ABC" {| Currency := "USD"; Value := "0.956" |}
              (Float64frombits 0x3fee978d4fdf3b64))
    as (w' & Hcall & Hfile); [vm_compute; reflexivity..|exact H3|].
  rewrite Hcall. split; [reflexivity|]. exact Hfile.
Defined.

Lemma GetEC2Price_torn_write_cached_witness :
  fst (@GetEC2Price runtime_ABC "m4.4xlarge" "Shared" "Linux" "OnDemand" world_disk_full)
  = Err (PathError "write" default_cache_file)
  ∧ fst (@GetEC2Price runtime_ABC "m4.4xlarge" "Shared" "Linux" "OnDemand"
           (elapse 5000
              (snd (@GetEC2Price runtime_ABC "m4.4xlarge" "Shared" "Linux" "OnDemand"
                      world_disk_full))))
    = Err ErrUnexpectedEOF.
Proof.
  assert (H1 : fresh_in world_disk_full default_cache_file = false)
    by (vm_compute; reflexivity).
  assert (H2 : @GetEC2Price runtime_ABC "m4.4xlarge" "Shared" "Linux" "OnDemand"
                 world_disk_full
               = (Err (PathError "write" default_cache_file),
                  snd (@GetEC2Price runtime_ABC "m4.4xlarge" "Shared" "Linux" "OnDemand"
                         world_disk_full)))
    by (vm_compute; reflexivity).
  assert (H3 : read_fault world_disk_full default_cache_file = false) by reflexivity.
  assert (H4 : 0 ≤ 5000 < MAX_CACHE_AGE * time.Second)
    by (unfold MAX_CACHE_AGE, time.Second; lia).
  split; [rewrite H2; reflexivity|].
  destruct (@GetEC2Price_torn_write_cached runtime_ABC "m4.4xlarge" "Shared" "Linux"
              "OnDemand" world_disk_full _ 5000 H1 H2 H3 H4)
    as (written & v & Hstage & _ & w2 & Hnext & _).
  rewrite Hnext. injection Hstage as <-. reflexivity.
Defined.

Lemma GetEC2Price_shared_blob_witness :
  ("m4.4xlarge", "Shared", "Linux", "OnDemand")
    ≠ ("m4.4xlargeShared", "", "Linux", "OnDemand")
  ∧ fst (@GetEC2Price runtime_ABC "m4.4xlarge" "Shared" "Linux" "OnDemand" world_online)
    = Ret (Float64frombits 0x3fee978d4fdf3b64)
  ∧ @GetSKU runtime_ABC offer_ABC "m4.4xlargeShared" "" "Linux" = Ok ""
  ∧ fst (@GetEC2Price runtime_ABC "m4.4xlargeShared" "" "Linux" "OnDemand"
           (elapse 5
              (snd (@GetEC2Price runtime_ABC "m4.4xlarge" "Shared" "Linux" "OnDemand"
                      world_online))))
    = Ret (Float64frombits 0x3fee978d4fdf3b64).
Proof.
  assert (H2 : @GetEC2Price runtime_ABC "m4.4xlarge" "Shared" "Linux" "OnDemand" world_online
               = (Ret (Float64frombits 0x3fee978d4fdf3b64),
                  snd (@GetEC2Price runtime_ABC "m4.4xlarge" "Shared" "Linux" "OnDemand"
                         world_online)))
    by (vm_compute; reflexivity).
  split; [discriminate|]. split; [rewrite H2; reflexivity|].
  split; [vm_compute; reflexivity|].
  destruct (@GetEC2Price_shared_blob runtime_ABC
              "m4.4xlarge" "Shared" "Linux" "OnDemand"
              "m4.4xlargeShared" "" "Linux" "OnDemand"
              world_online _ _ 5 eq_refl H2) as (w2 & Hcall & _).
  - vm_compute. reflexivity.
  - reflexivity.
  - rewrite Hcall. reflexivity.
Defined.

Lemma main_prints_cached_witness :
  fst (fst (@main runtime_ABC host_ready no_flags world_online))
  = Println (Float64frombits 0x3fee978d4fdf3b64)
  ∧ ∃ f, files (snd (@main runtime_ABC host_ready no_flags world_online))
           !! default_cache_file = Some f
         ∧ binaryIO.Read (Contents f) = Ok (Float64frombits 0x3fee978d4fdf3b64).
Proof.
  assert (H : @main runtime_ABC host_ready no_flags world_online
              = (Println (Float64frombits 0x3fee978d4fdf3b64),
                 snd (fst (@main runtime_ABC host_ready no_flags world_online)),
                 snd (@main runtime_ABC host_ready no_flags world_online)))
    by (vm_compute; reflexivity).
  split; [rewrite H; reflexivity|].
  destruct (@main_prints_cached runtime_ABC host_ready no_flags world_online _ _ _ H)
    as (_ & _ & Hcached).
  exact Hcached.
Defined.

Lemma main_directory_failure_witness :
  dir_stat host_readonly CACHE_DIR = Some (PathError "stat" CACHE_DIR)
  ∧ mkdir_all host_readonly CACHE_DIR = Some (PathError "mkdir" CACHE_DIR)
  ∧ fst (fst (@main runtime_ABC host_readonly no_flags world_online))
    = Fatalf "Could not get offers: %s" None
  ∧ files (snd (@main runtime_ABC host_readonly no_flags world_online))
    = files world_online.
Proof.
  split; [reflexivity|]. split; [reflexivity|].
  destruct (@main_directory_failure runtime_ABC host_readonly no_flags world_online)
    as (_ & Hmk).
  rewrite (Hmk _ _ eq_refl eq_refl eq_refl). split; reflexivity.
Defined.

Lemma main_failure_keeps_cache_witness :
  fst (fst (@main runtime_ABC host_ready no_flags world_offline))
  = Fatalf "Could not get offers: %s" (Some (HttpError URL))
  ∧ files (snd (@main runtime_ABC host_ready no_flags world_offline)) !! default_cache_file
    = files world_offline !! default_cache_file.
Proof.
  assert (H : @main runtime_ABC host_ready no_flags world_offline
              = (Fatalf "Could not get offers: %s" (Some (HttpError URL)),
                 snd (fst (@main runtime_ABC host_ready no_flags world_offline)),
                 snd (@main runtime_ABC host_ready no_flags world_offline)))
    by (vm_compute; reflexivity).
  split; [rewrite H; reflexivity|].
  apply (@main_failure_keeps_cache runtime_ABC host_ready no_flags world_offline _ _ _ H);
    discriminate.
Defined.
